(** * text-classification-baseline: the training script and the curve helpers

    A shallow embedding of [baseline.py] and [text_clf/pr_roc_curve.py].
    Python code that touches the file system or calls a collaborator is a
    computation in a small state-and-exception monad: the state holds the
    file store and the chronological trace of the calls made so far; an
    exception leaves the state as it was when it was raised.

    External collaborators (pandas, scikit-learn, joblib's pickling, the JSON
    parser, and the package's own [config] and [data] modules) are interfaces:
    type classes whose operations the theorems quantify over. *)

From Stdlib Require Import Ascii String.
From stdpp Require Import base strings list gmap fin_maps pretty.

Local Open Scope string_scope.
Set Warnings "-register-all".

(** ** Python exceptions and results *)

Inductive exn : Type :=
  | Exception (msg : string)
  | TypeError (msg : string)
  | FileNotFoundError (msg : string)
  | FileExistsError (msg : string)
  | IsADirectoryError (msg : string)
  | NotADirectoryError (msg : string)
  | OSError (msg : string)
  | JSONDecodeError (msg : string)
  | IndexError (msg : string)
  | LibraryError (msg : string).

Inductive result (A : Type) : Type :=
  | Ok (a : A)
  | Raise (e : exn).
Arguments Ok {A} a.
Arguments Raise {A} e.

(** ** The file store

    Keys are paths as the program spells them, relative to the working
    directory of the process; a directory's entries are the keys one level
    below it, so the working directory's entries are the keys without a
    separator. *)

Inductive node : Type :=
  | File (content : string)
  | Dir.

Inductive event : Type :=
  | EvOpen (path : string)
  | EvJsonLoad
  | EvGlob (pattern : string)
  | EvGetConfig (path : string)
  | EvLoadData
  | EvJoblibLoad (path : string)
  | EvJoblibDump (path : string)
  | EvReadCsv (path : string)
  | EvExists (path : string)
  | EvMakedirs (path : string)
  | EvPrint (text : string).

Record state : Type := mkState {
  files : gmap string node;
  readonly : bool;
  trace : list event
}.

Definition log (e : event) (s : state) : state :=
  mkState (files s) (readonly s) (trace s ++ [e])%list.

(** The state after further events. *)
Definition after (evs : list event) (s : state) : state :=
  mkState (files s) (readonly s) (trace s ++ evs)%list.

Definition set_files (fs : gmap string node) (s : state) : state :=
  mkState fs (readonly s) (trace s).

(** ** The monad *)

Definition M (A : Type) : Type := state → result A * state.

Definition run {A} (m : M A) (s : state) : result A * state := m s.

Global Instance M_ret : MRet M := λ A a s, (Ok a, s).
Global Instance M_bind : MBind M := λ A B f m s,
  match m s with
  | (Ok a, s') => f a s'
  | (Raise e, s') => (Raise e, s')
  end.

Definition raise {A} (e : exn) : M A := λ s, (Raise e, s).
Definition emit (e : event) : M unit := λ s, (Ok (), log e s).
Definition lift {A} (r : result A) : M A := λ s, (r, s).

(** ** String helpers: [str.startswith], [str.endswith], [in] *)

Definition startswith (s pre : string) : bool := String.prefix pre s.

Fixpoint endswith (s suf : string) : bool :=
  String.eqb s suf ||
  match s with
  | EmptyString => false
  | String _ s' => endswith s' suf
  end.

Fixpoint has_char (c : ascii) (s : string) : bool :=
  match s with
  | EmptyString => false
  | String d s' => Ascii.eqb c d || has_char c s'
  end.

Fixpoint strip_prefix (pre s : string) : option string :=
  match pre, s with
  | EmptyString, _ => Some s
  | String c pre', String d s' =>
      if Ascii.eqb c d then strip_prefix pre' s' else None
  | String _ _, EmptyString => None
  end.

(** ** [os.path] (posixpath) *)

Module os_path.

(** [os.path.join(a, b)]: an absolute [b] replaces [a]; otherwise one
    separator is put between them unless [a] is empty or ends with one. *)
Definition join (a b : string) : string :=
  if startswith b "/" then b
  else if String.eqb a "" || endswith a "/" then a +:+ b
  else a +:+ "/" +:+ b.

(** The part before the last separator, separator included, and the part
    after it; [None] when there is no separator. *)
Fixpoint rpartition (p : string) : option (string * string) :=
  match p with
  | EmptyString => None
  | String c p' =>
      match rpartition p' with
      | Some (h, t) => Some (String c h, t)
      | None => if Ascii.eqb c "/"%char then Some ("/", p') else None
      end
  end.

Fixpoint all_sep (s : string) : bool :=
  match s with
  | EmptyString => true
  | String c s' => Ascii.eqb c "/"%char && all_sep s'
  end.

(** [head.rstrip('/')] *)
Fixpoint rstrip_sep (s : string) : string :=
  match s with
  | EmptyString => EmptyString
  | String c s' => if all_sep (String c s') then EmptyString
                   else String c (rstrip_sep s')
  end.

(** [os.path.split(p)] *)
Definition split (p : string) : string * string :=
  match rpartition p with
  | None => ("", p)
  | Some (h, t) => (if all_sep h then h else rstrip_sep h, t)
  end.

Definition dirname (p : string) : string := (split p).1.

(** [os.path.exists(p)] *)
Definition exists_ (p : string) : M bool := λ s,
  (Ok (bool_decide (is_Some (files s !! p))), log (EvExists p) s).

End os_path.

(** ** A path that is not there

    Opening a path that has no entry fails with [ENOTDIR] when the nearest
    ancestor that exists is a regular file, and with [ENOENT] otherwise. *)

Fixpoint under_regular_file (fuel : nat) (fs : gmap string node)
    (path : string) : bool :=
  match fuel with
  | 0 => false
  | S fuel' =>
      let d := os_path.dirname path in
      if String.eqb d "" then false
      else
        match fs !! d with
        | Some (File _) => true
        | Some Dir => false
        | None => under_regular_file fuel' fs d
        end
  end.

Definition missing_error (fs : gmap string node) (path : string) : exn :=
  if under_regular_file (String.length path) fs path
  then NotADirectoryError path
  else FileNotFoundError path.

(** ** Directory listings, [fnmatch] and [glob] *)

(** The name of the entry [k] inside directory [d], when [k] is one: the
    working directory is spelled [""] (glob lists [os.curdir] for it). *)
Definition child_name (d k : string) : option string :=
  let pre := if String.eqb d "" || endswith d "/" then d else d +:+ "/" in
  match strip_prefix pre k with
  | Some n => if String.eqb n "" || has_char "/"%char n then None else Some n
  | None => None
  end.

Definition listdir (fs : gmap string node) (d : string) : list string :=
  omap (child_name d) (map_to_list fs).*1.

(** Shell-style matching with [*] and [?]. *)
Fixpoint fnmatch_chars (p s : list ascii) : bool :=
  match p with
  | [] => match s with [] => true | _ => false end
  | c :: p' =>
      if Ascii.eqb c "*"%char then
        (fix star (s : list ascii) : bool :=
           fnmatch_chars p' s ||
           match s with [] => false | _ :: s' => star s' end) s
      else
        match s with
        | [] => false
        | d :: s' => (Ascii.eqb c "?"%char || Ascii.eqb c d) && fnmatch_chars p' s'
        end
  end.

Definition fnmatch (name pat : string) : bool :=
  fnmatch_chars (list_ascii_of_string pat) (list_ascii_of_string name).

Module glob.

Definition _ishidden (name : string) : bool := startswith name ".".

(** [has_magic(s)]: does [s] hold one of [*], [?], [[]? *)
Fixpoint has_magic (s : string) : bool :=
  match s with
  | EmptyString => false
  | String c s' =>
      Ascii.eqb c "*"%char || Ascii.eqb c "?"%char || Ascii.eqb c "["%char
      || has_magic s'
  end.

(** [glob1(dirname, pattern)]: the entries of [dirname] that match; hidden
    entries only when the pattern itself is hidden. *)
Definition glob1 (fs : gmap string node) (dirname pattern : string)
  : list string :=
  let names := listdir fs dirname in
  let names := if _ishidden pattern then names
               else filter (λ x, _ishidden x = false) names in
  filter (λ x, fnmatch x pattern = true) names.

(** [glob.glob(pattern)], the directory part of the pattern taken
    literally. *)
Definition glob (pattern : string) : M (list string) := λ s,
  let '(d, b) := os_path.split pattern in
  let names := glob1 (files s) d b in
  (Ok (if String.eqb d "" then names else os_path.join d <$> names),
   log (EvGlob pattern) s).

End glob.

(** ** Builtins: [open], [len], indexing, [print] *)

(** [with open(path, mode="r") as fp]: the content of a regular file. *)
Definition open (path : string) : M string := λ s,
  (match files s !! path with
   | Some (File content) => Ok content
   | Some Dir => Raise (IsADirectoryError path)
   | None => Raise (missing_error (files s) path)
   end, log (EvOpen path) s).

(** What [json.load] returns: lists, dicts (distinct keys, in file order),
    strings, numbers, booleans and [None]. *)
Inductive pyjson : Type :=
  | JList (items : list pyjson)
  | JDict (items : list (string * pyjson))
  | JStr (text : string)
  | JNum (literal : string)
  | JBool (b : bool)
  | JNone.

(** [len(x)]; numbers, booleans and [None] have no length. *)
Definition py_len (x : pyjson) : option nat :=
  match x with
  | JList items => Some (length items)
  | JDict items => Some (length items)
  | JStr text => Some (String.length text)
  | JNum _ | JBool _ | JNone => None
  end.

Definition len (x : pyjson) : M nat :=
  match py_len x with
  | Some n => mret n
  | None => raise (TypeError "object has no len()")
  end.

(** [l[i]] *)
Definition getitem {A} (l : list A) (i : nat) : M A :=
  match l !! i with
  | Some x => mret x
  | None => raise (IndexError "list index out of range")
  end.

Definition print (text : string) : M unit := emit (EvPrint text).

(** ** Calling a library function with keyword arguments

    A signature lists the parameters that have no default and those that
    have one. Python rejects a keyword the signature does not have, then a
    missing parameter without default; the body receives the values of the
    parameters without default, in the signature's order. *)

Record signature : Type := mkSignature {
  fname : string;
  required : list string;
  optional : list string
}.

Definition kwlookup {V} (kwargs : list (string * V)) (k : string) : option V :=
  (λ found, found.2.2) <$> list_find (λ kv, kv.1 = k) kwargs.

Definition bind_keywords {V} (sig : signature) (kwargs : list (string * V))
  : result (list V) :=
  match filter (λ kv, kv.1 ∉ (required sig ++ optional sig)%list) kwargs with
  | (k, _) :: _ =>
      Raise (TypeError (fname sig +:+ "() got an unexpected keyword argument '"
                        +:+ k +:+ "'"))
  | [] =>
      match mapM (kwlookup kwargs) (required sig) with
      | Some args => Ok args
      | None =>
          Raise (TypeError (fname sig +:+ "() missing a required argument"))
      end
  end.

Definition call_kw {V R} (sig : signature) (body : list V → result R)
    (kwargs : list (string * V)) : M R :=
  args ← lift (bind_keywords sig kwargs);
  lift (body args).

(** ** Collaborators of the diagnostics flow

    [json.load]'s parser, the package's [config.get_config] and
    [data.load_data] (their sources are not among the embedded files; they
    are taken to read the file store and never to write it), joblib's
    pickling of a
    fitted estimator (the resolver's [Pipeline], the training script's
    [LogisticRegression]), the estimator's [predict_proba], and
    scikit-learn's curve functions with the signatures they declare. *)

Class Diagnostics : Type := {
  Estimator : Type;
  ndarray : Type;
  Config : Type;
  json_loads : string → result pyjson;
  get_config_impl : gmap string node → string → result Config;
  load_data_impl :
    gmap string node → Config → result (ndarray * ndarray * ndarray * ndarray);
  pickle_dumps : Estimator → string;
  pickle_loads : string → result Estimator;
  predict_proba : Estimator → ndarray → result ndarray;
  precision_recall_curve_sig : signature;
  precision_recall_curve_impl :
    list ndarray → result (ndarray * ndarray * ndarray);
  roc_curve_sig : signature;
  roc_curve_impl : list ndarray → result (ndarray * ndarray * ndarray)
}.

Module json.
Section json.
Context `{Diagnostics}.

(** [json.load(fp)] on the content read from [fp]. *)
Definition load (fp : string) : M pyjson :=
  _ ← emit EvJsonLoad;
  lift (json_loads fp).

End json.
End json.

Module joblib.
Section joblib.
Context `{Diagnostics}.

(** [joblib.load(filename)]: opens the file, then unpickles its content.
    The directory of [filename] is taken to be a directory, as it is
    wherever the caller has read another file of it before. *)
Definition load (filename : string) : M Estimator := λ s,
  (match files s !! filename with
   | Some (File content) => pickle_loads content
   | Some Dir => Raise (IsADirectoryError filename)
   | None => Raise (FileNotFoundError filename)
   end, log (EvJoblibLoad filename) s).

(** [joblib.dump(value, filename)]: opens the file for writing, so its
    directory must exist and the target must not be a directory. *)
Definition dump (value : Estimator) (filename : string) : M unit := λ s,
  let s' := log (EvJoblibDump filename) s in
  let d := os_path.dirname filename in
  match (if String.eqb d "" then Some Dir else files s !! d) with
  | None => (Raise (FileNotFoundError filename), s')
  | Some (File _) => (Raise (NotADirectoryError filename), s')
  | Some Dir =>
      match files s !! filename with
      | Some Dir => (Raise (IsADirectoryError filename), s')
      | _ =>
          if readonly s then (Raise (OSError filename), s')
          else (Ok (), set_files (<[filename := File (pickle_dumps value)]> (files s)) s')
      end
  end.

End joblib.
End joblib.

(** ** [text_clf/pr_roc_curve.py] *)

Section pr_roc_curve.
Context `{Diagnostics}.

Definition get_config (path_to_config : string) : M Config := λ s,
  (get_config_impl (files s) path_to_config, log (EvGetConfig path_to_config) s).

Definition load_data (config : Config)
  : M (ndarray * ndarray * ndarray * ndarray) := λ s,
  (load_data_impl (files s) config, log EvLoadData s).

Definition not_binary_message (n : nat) : string :=
  "The model must have 2 classes, but has " +:+ pretty n +:+ " classes.".

Definition no_config_message : string :=
  "There is no config file (with .yaml extension).".

Definition many_configs_message : string :=
  "There are more then one config files (with .yaml extension).".

Definition _get_model_and_data (path_to_model_folder : string)
  : M (Estimator * ndarray * ndarray) :=
  let path_to_model := os_path.join path_to_model_folder "model.joblib" in
  let path_to_target_names :=
    os_path.join path_to_model_folder "target_names.json" in
  fp ← open path_to_target_names;
  target_names ← json.load fp;
  n ← len target_names;
  if negb (n =? 2)%nat then raise (Exception (not_binary_message n))
  else
    path_to_model_folder_yaml_list ← glob.glob "*.yaml";
    if (length path_to_model_folder_yaml_list =? 0)%nat then
      raise (FileNotFoundError no_config_message)
    else if (1 <? length path_to_model_folder_yaml_list)%nat then
      raise (FileNotFoundError many_configs_message)
    else
      yaml0 ← getitem path_to_model_folder_yaml_list 0;
      let path_to_config := os_path.join path_to_model_folder yaml0 in
      config ← get_config path_to_config;
      '(_, X_test, _, y_test) ← load_data config;
      model ← joblib.load path_to_model;
      mret (model, X_test, y_test).

(** Lines 57-70 on their own: what the resolver does once the search has
    given its list. *)
Definition load_config_data_model (path_to_model_folder path_to_model : string)
    (path_to_model_folder_yaml_list : list string)
  : M (Estimator * ndarray * ndarray) :=
  yaml0 ← getitem path_to_model_folder_yaml_list 0;
  let path_to_config := os_path.join path_to_model_folder yaml0 in
  config ← get_config path_to_config;
  '(_, X_test, _, y_test) ← load_data config;
  model ← joblib.load path_to_model;
  mret (model, X_test, y_test).

(** What remains of the resolver once the class labels have been read and
    counted: lines 44-70. *)
Definition after_count (path_to_model_folder : string) (n : nat)
  : M (Estimator * ndarray * ndarray) :=
  if negb (n =? 2)%nat then raise (Exception (not_binary_message n))
  else
    path_to_model_folder_yaml_list ← glob.glob "*.yaml";
    if (length path_to_model_folder_yaml_list =? 0)%nat then
      raise (FileNotFoundError no_config_message)
    else if (1 <? length path_to_model_folder_yaml_list)%nat then
      raise (FileNotFoundError many_configs_message)
    else
      load_config_data_model path_to_model_folder
        (os_path.join path_to_model_folder "model.joblib")
        path_to_model_folder_yaml_list.

Definition get_precision_recall_curve (path_to_model_folder : string)
  : M (ndarray * ndarray * ndarray) :=
  '(model, X_test, y_test) ← _get_model_and_data path_to_model_folder;
  y_test_probas_pred ← lift (predict_proba model X_test);
  '(precision, recall, thresholds) ←
    call_kw precision_recall_curve_sig precision_recall_curve_impl
      [("y_true", y_test); ("probas_pred", y_test_probas_pred)];
  mret (precision, recall, thresholds).

Definition get_roc_curve (path_to_model_folder : string)
  : M (ndarray * ndarray * ndarray) :=
  '(model, X_test, y_test) ← _get_model_and_data path_to_model_folder;
  y_test_probas_pred ← lift (predict_proba model X_test);
  '(fpr, tpr, thresholds) ←
    call_kw roc_curve_sig roc_curve_impl
      [("y_true", y_test); ("probas_pred", y_test_probas_pred)];
  mret (fpr, tpr, thresholds).

(** The display objects hold the sequences they were built from. *)
Record PrecisionRecallDisplay : Type := mkPrecisionRecallDisplay {
  precision : ndarray;
  recall : ndarray
}.

Record RocCurveDisplay : Type := mkRocCurveDisplay {
  fpr : ndarray;
  tpr : ndarray
}.

Definition plot_precision_recall_curve (precision recall : ndarray)
  : M PrecisionRecallDisplay :=
  mret {| precision := precision; recall := recall |}.

Definition plot_roc_curve (fpr tpr : ndarray) : M RocCurveDisplay :=
  mret {| fpr := fpr; tpr := tpr |}.

End pr_roc_curve.

(** ** [os.mkdir] and [os.makedirs] *)

Module os.

Definition mkdir_files (fs : gmap string node) (ro : bool) (name : string)
  : result (gmap string node) :=
  match fs !! name with
  | Some _ => Raise (FileExistsError name)
  | None =>
      let d := os_path.dirname name in
      match (if String.eqb d "" then Some Dir else fs !! d) with
      | None => Raise (FileNotFoundError name)
      | Some (File _) => Raise (NotADirectoryError name)
      | Some Dir => if ro then Raise (OSError name)
                    else Ok (<[name := Dir]> fs)
      end
  end.

(** [os.makedirs(name)] with [exist_ok=False]: missing ancestors first, an
    ancestor that appears meanwhile is fine, then the leaf itself. *)
Fixpoint makedirs_files (fuel : nat) (fs : gmap string node) (ro : bool)
    (name : string) : result (gmap string node) :=
  let '(head, tail) := os_path.split name in
  let '(head, tail) :=
    if String.eqb tail "" then os_path.split head else (head, tail) in
  match fuel with
  | 0 => mkdir_files fs ro name
  | S fuel' =>
      if negb (String.eqb head "") && negb (String.eqb tail "")
         && negb (bool_decide (is_Some (fs !! head)))
      then
        match makedirs_files fuel' fs ro head with
        | Ok fs' => mkdir_files fs' ro name
        | Raise (FileExistsError _) => mkdir_files fs ro name
        | Raise e => Raise e
        end
      else mkdir_files fs ro name
  end.

Definition makedirs (name : string) : M unit := λ s,
  let s' := log (EvMakedirs name) s in
  match makedirs_files (String.length name) (files s) (readonly s) name with
  | Ok fs' => (Ok (), set_files fs' s')
  | Raise e => (Raise e, s')
  end.

End os.

(** ** Collaborators of the training script: pandas and scikit-learn *)

Class Training `{Diagnostics} : Type := {
  DataFrame : Type;
  Series : Type;
  LabelEncoder : Type;
  TfidfVectorizer : Type;
  read_csv_impl : string → result DataFrame;
  df_getitem : DataFrame → string → result Series;
  le_fit_transform : Series → result (LabelEncoder * ndarray);
  le_transform : LabelEncoder → Series → result ndarray;
  tfidf_fit_transform : Series → result (TfidfVectorizer * ndarray);
  tfidf_transform : TfidfVectorizer → Series → result ndarray;
  logreg_fit : ndarray → ndarray → result Estimator;
  predict : Estimator → ndarray → result ndarray;
  classification_report_sig : signature;
  classification_report_impl : list ndarray → result string
}.

Module pd.
Section pd.
Context `{Training}.

(** [pd.read_csv(path, index_col=0)] *)
Definition read_csv (path : string) : M DataFrame := λ s,
  (match files s !! path with
   | Some (File content) => read_csv_impl content
   | Some Dir => Raise (IsADirectoryError path)
   | None => Raise (missing_error (files s) path)
   end, log (EvReadCsv path) s).

End pd.
End pd.

(** ** [baseline.py] *)

Section baseline.
Context `{Training}.

Definition filename : string := "log_reg_tf_idf".
Definition directory : string := "saved_models".

(** The names the script has bound when it ends. *)
Record namespace : Type := mkNamespace {
  le : LabelEncoder;
  vectorizer : TfidfVectorizer;
  clf : Estimator;
  y_pred : ndarray;
  path : string
}.

(** Lines 49-50. *)
Definition makedirs_if_absent : M unit :=
  present ← os_path.exists_ directory;
  if negb present then os.makedirs directory else mret ().

(** Lines 45-53. *)
Definition save_model (clf : Estimator) : M string :=
  _ ← makedirs_if_absent;
  let path := directory +:+ "/" +:+ filename +:+ ".joblib" in
  _ ← joblib.dump clf path;
  mret path.

Definition baseline : M namespace :=
  df_train ← pd.read_csv "data/data_train.csv";
  df_test ← pd.read_csv "data/data_test.csv";
  X_train ← lift (df_getitem df_train "Text");
  X_test ← lift (df_getitem df_test "Text");
  y_train ← lift (df_getitem df_train "Class");
  y_test ← lift (df_getitem df_test "Class");
  '(le, y_train) ← lift (le_fit_transform y_train);
  y_test ← lift (le_transform le y_test);
  '(vectorizer, X_train_tfidf) ← lift (tfidf_fit_transform X_train);
  X_test_tfidf ← lift (tfidf_transform vectorizer X_test);
  clf ← lift (logreg_fit X_train_tfidf y_train);
  y_pred ← lift (predict clf X_test_tfidf);
  report ← call_kw classification_report_sig classification_report_impl
             [("y_true", y_test); ("y_pred", y_pred)];
  _ ← print report;
  path ← save_model clf;
  mret {| le := le; vectorizer := vectorizer; clf := clf;
          y_pred := y_pred; path := path |}.

End baseline.

(** ** What a computation may do to the state

    [read_only m]: [m] only records calls; the file store and the read-only
    flag stay as they are. [preserves keep m]: [m] leaves every path
    satisfying [keep] as it is, whether it returns or raises. *)

Definition read_only {A} (m : M A) : Prop :=
  ∀ s, ∃ evs, (run m s).2 = after evs s.

Definition preserves (keep : string → Prop) {A} (m : M A) : Prop :=
  ∀ s p, keep p → files (run m s).2 !! p = files s !! p.

(** ** A concrete world for examples

    Estimators are their pickled text, arrays are lists of numbers, a
    configuration is the text of its file, and the JSON parser reads arrays
    of plain strings. The curve functions carry the signatures
    [precision_recall_curve(y_true, probas_pred, *, pos_label, sample_weight)]
    and [roc_curve(y_true, y_score, *, pos_label, sample_weight,
    drop_intermediate)] that scikit-learn declares. *)

Module demo.

Fixpoint string_items (s : string) (cur : option string) (acc : list pyjson)
  : result (list pyjson) :=
  match s with
  | EmptyString => Raise (JSONDecodeError "unterminated array")
  | String c s' =>
      match cur with
      | Some w =>
          if Ascii.eqb c "034"%char then string_items s' None (acc ++ [JStr w])
          else string_items s' (Some (w +:+ String c EmptyString)) acc
      | None =>
          if Ascii.eqb c "034"%char then string_items s' (Some "") acc
          else if Ascii.eqb c ","%char || Ascii.eqb c " "%char
          then string_items s' None acc
          else if Ascii.eqb c "]"%char && String.eqb s' ""
          then Ok acc
          else Raise (JSONDecodeError "unexpected character")
      end
  end.

Definition loads (s : string) : result pyjson :=
  match s with
  | String "["%char s' =>
      match string_items s' None [] with
      | Ok items => Ok (JList items)
      | Raise e => Raise e
      end
  | _ => Raise (JSONDecodeError "expected an array")
  end.

Definition q : string := String "034"%char EmptyString.

(** The texts [["a", "b"]] and [["a", "b", "c"]]. *)
Definition two_names : string :=
  "[" +:+ q +:+ "a" +:+ q +:+ ", " +:+ q +:+ "b" +:+ q +:+ "]".
Definition three_names : string :=
  "[" +:+ q +:+ "a" +:+ q +:+ ", " +:+ q +:+ "b" +:+ q +:+ ", "
      +:+ q +:+ "c" +:+ q +:+ "]".

Definition read_config (fs : gmap string node) (path : string)
  : result string :=
  match fs !! path with
  | Some (File content) => Ok content
  | Some Dir => Raise (IsADirectoryError path)
  | None => Raise (FileNotFoundError path)
  end.

Definition split_data (fs : gmap string node) (config : string)
  : result (list nat * list nat * list nat * list nat) :=
  Ok ([10; 11; 12], [20; 21], [0; 1; 0], [1; 0]).

Definition scores (model : string) (X : list nat) : result (list nat) :=
  Ok ((λ x, x + String.length model) <$> X).

Definition curve (args : list (list nat))
  : result (list nat * list nat * list nat) :=
  match args with
  | [y_true; y_score] => Ok (y_true, y_score, y_score)
  | _ => Raise (LibraryError "arity")
  end.

#[global] Instance world : Diagnostics := {|
  Estimator := string;
  ndarray := list nat;
  Config := string;
  json_loads := loads;
  get_config_impl := read_config;
  load_data_impl := split_data;
  pickle_dumps := id;
  pickle_loads := Ok;
  predict_proba := scores;
  precision_recall_curve_sig :=
    mkSignature "precision_recall_curve" ["y_true"; "probas_pred"]
      ["pos_label"; "sample_weight"];
  precision_recall_curve_impl := curve;
  roc_curve_sig :=
    mkSignature "roc_curve" ["y_true"; "y_score"]
      ["pos_label"; "sample_weight"; "drop_intermediate"];
  roc_curve_impl := curve
|}.

Definition store (entries : list (string * node)) : state :=
  mkState (list_to_map entries) false [].

(** A model folder [m] with its three items, called from a working
    directory that holds nothing but [m]. *)
Definition elsewhere : state :=
  store [("m", Dir); ("m/model.joblib", File "weights");
         ("m/target_names.json", File two_names);
         ("m/cfg.yaml", File "seed: 1")].

(** The working directory is itself the model folder. *)
Definition inside : state :=
  store [("model.joblib", File "weights");
         ("target_names.json", File two_names);
         ("cfg.yaml", File "seed: 1")].

Definition three_classes : state :=
  store [("m", Dir); ("m/model.joblib", File "weights");
         ("m/target_names.json", File three_names);
         ("m/cfg.yaml", File "seed: 1")].

(** A pandas and scikit-learn stand-in: a frame is the text of its file, a
    column is its name and that text, a fitted object remembers the column
    it was fitted on. *)
Definition column (df name : string) : result (string * string) :=
  if String.eqb name "Text" || String.eqb name "Class" then Ok (name, df)
  else Raise (LibraryError "KeyError").

Definition fit_on (col : string * string)
  : result ((string * string) * list nat) :=
  Ok (col, [String.length col.2]).

Definition transform_with (fitted col : string * string)
  : result (list nat) :=
  Ok [String.length fitted.2; String.length col.2].

#[global] Instance training_world : Training := {|
  DataFrame := string;
  Series := string * string;
  LabelEncoder := string * string;
  TfidfVectorizer := string * string;
  read_csv_impl := Ok;
  df_getitem := column;
  le_fit_transform := fit_on;
  le_transform := transform_with;
  tfidf_fit_transform := fit_on;
  tfidf_transform := transform_with;
  logreg_fit := λ X y, Ok ("logreg" +:+ pretty (sum_list X + sum_list y));
  predict := λ clf X, Ok X;
  classification_report_sig :=
    mkSignature "classification_report" ["y_true"; "y_pred"]
      ["labels"; "target_names"; "sample_weight"; "digits"; "output_dict";
       "zero_division"];
  classification_report_impl := λ _, Ok "report"
|}.

Definition short_test : state :=
  store [("data", Dir); ("data/data_train.csv", File ",Text,Class");
         ("data/data_test.csv", File ",Text,Class")].

Definition long_test : state :=
  store [("data", Dir); ("data/data_train.csv", File ",Text,Class");
         ("data/data_test.csv", File ",Text,Class,more");
         ("saved_models", Dir)].

(** The configuration lies in the working directory, not in [m]. *)
Definition stray_config : state :=
  store [("cfg.yaml", File "seed: 1"); ("m", Dir);
         ("m/model.joblib", File "weights");
         ("m/target_names.json", File two_names)].

(** Two configurations next to the model. *)
Definition two_configs : state :=
  store [("model.joblib", File "weights");
         ("target_names.json", File two_names);
         ("a.yaml", File "seed: 1"); ("b.yaml", File "seed: 2")].

(** Everything but the pickled model. *)
Definition no_model : state :=
  store [("target_names.json", File two_names);
         ("cfg.yaml", File "seed: 1")].


(** A parser that also reads a JSON string, and the world that uses it. *)
Fixpoint string_body (s acc : string) : result pyjson :=
  match s with
  | EmptyString => Raise (JSONDecodeError "unterminated string")
  | String c s' =>
      if Ascii.eqb c "034"%char then
        if String.eqb s' "" then Ok (JStr acc)
        else Raise (JSONDecodeError "extra data")
      else string_body s' (acc +:+ String c EmptyString)
  end.

Definition loads_text (s : string) : result pyjson :=
  match s with
  | String c s' => if Ascii.eqb c "034"%char then string_body s' "" else loads s
  | EmptyString => loads s
  end.

Definition text_world : Diagnostics := {|
  Estimator := string;
  ndarray := list nat;
  Config := string;
  json_loads := loads_text;
  get_config_impl := read_config;
  load_data_impl := split_data;
  pickle_dumps := id;
  pickle_loads := Ok;
  predict_proba := scores;
  precision_recall_curve_sig :=
    mkSignature "precision_recall_curve" ["y_true"; "probas_pred"]
      ["pos_label"; "sample_weight"];
  precision_recall_curve_impl := curve;
  roc_curve_sig :=
    mkSignature "roc_curve" ["y_true"; "y_score"]
      ["pos_label"; "sample_weight"; "drop_intermediate"];
  roc_curve_impl := curve
|}.

(** The metadata file holds the JSON string ["ab"]. *)
Definition string_metadata : state :=
  store [("cfg.yaml", File "seed: 1"); ("model.joblib", File "weights");
         ("target_names.json", File (q +:+ "ab" +:+ q))].

(** A label encoder that rejects a test column differing from the one it
    was fitted on, and the training world that uses it. *)
Definition strict_transform (fitted col : string * string)
  : result (list nat) :=
  if String.eqb fitted.2 col.2 then transform_with fitted col
  else Raise (LibraryError "y contains previously unseen labels").

Definition strict_training : @Training world := {|
  DataFrame := string;
  Series := string * string;
  LabelEncoder := string * string;
  TfidfVectorizer := string * string;
  read_csv_impl := Ok;
  df_getitem := column;
  le_fit_transform := fit_on;
  le_transform := strict_transform;
  tfidf_fit_transform := fit_on;
  tfidf_transform := transform_with;
  logreg_fit := λ X y, Ok ("logreg" +:+ pretty (sum_list X + sum_list y));
  predict := λ clf X, Ok X;
  classification_report_sig :=
    mkSignature "classification_report" ["y_true"; "y_pred"]
      ["labels"; "target_names"; "sample_weight"; "digits"; "output_dict";
       "zero_division"];
  classification_report_impl := λ _, Ok "report"
|}.

(** Two model folders, each with one configuration of its own, called from
    a working directory that holds none. *)
Definition two_folders : state :=
  store [("m", Dir); ("m/model.joblib", File "weights");
         ("m/target_names.json", File two_names);
         ("m/cfg.yaml", File "seed: 1");
         ("n", Dir); ("n/model.joblib", File "weights");
         ("n/target_names.json", File two_names);
         ("n/cfg.yaml", File "seed: 2")].

(** A model folder without its class-label file. *)
Definition no_metadata : state :=
  store [("m", Dir); ("m/model.joblib", File "weights");
         ("cfg.yaml", File "seed: 1")].

(** The configuration the search finds is missing from the model folder;
    same store as [stray_config], named for the loading step. *)
Definition unreadable_config : state := stray_config.

(** [saved_models] is a regular file. *)
Definition models_is_file : state :=
  store [("data", Dir); ("data/data_train.csv", File ",Text,Class");
         ("data/data_test.csv", File ",Text,Class");
         ("saved_models", File "notes")].

(** [data] is a regular file. *)
Definition data_is_file : state := store [("data", File "notes")].

(** Only the test file is there. *)
Definition no_train : state :=
  store [("data", Dir); ("data/data_test.csv", File ",Text,Class")].

End demo.

(** * Properties *)

(** ** Running computations *)

Lemma run_bind {A B} (m : M A) (f : A → M B) (s : state) :
  run (m ≫= f) s =
  match run m s with
  | (Ok a, s') => run (f a) s'
  | (Raise e, s') => (Raise e, s')
  end.
Proof. reflexivity. Qed.

Lemma run_ret {A} (a : A) (s : state) : run (mret a) s = (Ok a, s).
Proof. reflexivity. Qed.

Lemma run_raise {A} (e : exn) (s : state) : run (raise e : M A) s = (Raise e, s).
Proof. reflexivity. Qed.

Lemma run_lift {A} (r : result A) (s : state) : run (lift r) s = (r, s).
Proof. reflexivity. Qed.

Lemma log_after (e : event) (s : state) : log e s = after [e] s.
Proof. reflexivity. Qed.

Lemma after_after (a b : list event) (s : state) :
  after b (after a s) = after (a ++ b) s.
Proof. unfold after; simpl. by rewrite <- app_assoc. Qed.

Lemma files_after (evs : list event) (s : state) : files (after evs s) = files s.
Proof. reflexivity. Qed.

Lemma run_open (p : string) (s : state) :
  run (open p) s =
  (match files s !! p with
   | Some (File content) => Ok content
   | Some Dir => Raise (IsADirectoryError p)
   | None => Raise (missing_error (files s) p)
   end, after [EvOpen p] s).
Proof. reflexivity. Qed.

Lemma run_glob_here (pat : string) (s : state) :
  os_path.split pat = ("", pat) →
  run (glob.glob pat) s = (Ok (glob.glob1 (files s) "" pat), after [EvGlob pat] s).
Proof. intros Hsplit. unfold run, glob.glob. by rewrite Hsplit. Qed.

(** ** Paths and patterns *)

Example join_relative : os_path.join "m" "model.joblib" = "m/model.joblib".
Proof. reflexivity. Qed.

Example join_here : os_path.join "" "cfg.yaml" = "cfg.yaml".
Proof. reflexivity. Qed.

Example join_trailing_separator : os_path.join "m/" "cfg.yaml" = "m/cfg.yaml".
Proof. reflexivity. Qed.

Example join_absolute : os_path.join "m" "/etc/cfg.yaml" = "/etc/cfg.yaml".
Proof. reflexivity. Qed.

Example split_pattern : os_path.split "*.yaml" = ("", "*.yaml").
Proof. reflexivity. Qed.

Example split_nested :
  os_path.split "saved_models/log_reg_tf_idf.joblib"
  = ("saved_models", "log_reg_tf_idf.joblib").
Proof. reflexivity. Qed.

(** A pattern without wildcards matches itself only. *)
Lemma fnmatch_literal (p n : string) :
  glob.has_magic p = false → fnmatch n p = String.eqb n p.
Proof.
  unfold fnmatch. revert n.
  induction p as [|c p IH]; intros n Hmagic.
  - by destruct n.
  - simpl in Hmagic. apply orb_false_elim in Hmagic as [Hc Hmagic].
    apply orb_false_elim in Hc as [Hc _].
    apply orb_false_elim in Hc as [Hstar Hquestion].
    simpl. rewrite Hstar. destruct n as [|d n]; [done|].
    simpl. rewrite Hquestion, (IH n Hmagic). simpl.
    by rewrite (Ascii.eqb_sym c d).
Qed.

(** A star followed by plain text matches the names that end with it. *)
Lemma fnmatch_star (p n : string) :
  glob.has_magic p = false → fnmatch n (String "*"%char p) = endswith n p.
Proof.
  intros Hmagic. unfold fnmatch. simpl.
  induction n as [|d n IH].
  - simpl. pose proof (fnmatch_literal p "" Hmagic) as Hlit.
    unfold fnmatch in Hlit. simpl in Hlit. rewrite Hlit. by rewrite orb_false_r.
  - pose proof (fnmatch_literal p (String d n) Hmagic) as Hlit.
    unfold fnmatch in Hlit. cbn [list_ascii_of_string] in *.
    rewrite Hlit, IH. reflexivity.
Qed.

(** The resolver's search: the entries of the working directory that are
    not hidden and end with [.yaml]. *)
Lemma glob1_yaml (fs : gmap string node) (n : string) :
  n ∈ glob.glob1 fs "" "*.yaml" ↔
  n ∈ listdir fs "" ∧ startswith n "." = false ∧ endswith n ".yaml" = true.
Proof.
  unfold glob.glob1. change (glob._ishidden "*.yaml") with false. cbv iota.
  rewrite !list_elem_of_filter.
  rewrite (fnmatch_star ".yaml" n eq_refl). unfold glob._ishidden. tauto.
Qed.

Section resolver_facts.
Context `{Diagnostics}.

Lemma run_json_load (fp : string) (s : state) :
  run (json.load fp) s = (json_loads fp, after [EvJsonLoad] s).
Proof. reflexivity. Qed.

Lemma run_get_config (p : string) (s : state) :
  run (get_config p) s = (get_config_impl (files s) p, after [EvGetConfig p] s).
Proof. reflexivity. Qed.

Lemma run_load_data (c : Config) (s : state) :
  run (load_data c) s = (load_data_impl (files s) c, after [EvLoadData] s).
Proof. reflexivity. Qed.

Lemma run_joblib_load (p : string) (s : state) :
  run (joblib.load p) s =
  (match files s !! p with
   | Some (File content) => pickle_loads content
   | Some Dir => Raise (IsADirectoryError p)
   | None => Raise (FileNotFoundError p)
   end, after [EvJoblibLoad p] s).
Proof. reflexivity. Qed.

(** Steps 1-2 on well-formed metadata: the file is opened and parsed, and
    the resolver goes on with the length of what was parsed. *)
Lemma resolver_reads_metadata (s : state) (folder content : string)
    (target_names : pyjson) (n : nat) :
  files s !! os_path.join folder "target_names.json" = Some (File content) →
  json_loads content = Ok target_names →
  py_len target_names = Some n →
  run (_get_model_and_data folder) s =
  run (after_count folder n)
    (after [EvOpen (os_path.join folder "target_names.json"); EvJsonLoad] s).
Proof.
  intros Hfile Hjson Hlen. unfold _get_model_and_data.
  rewrite run_bind, run_open, Hfile.
  rewrite run_bind, run_json_load, Hjson, after_after. simpl app.
  rewrite run_bind. unfold len. rewrite Hlen, run_ret. reflexivity.
Qed.

(** The search step, lines 50-56, on metadata of two entries. *)
Lemma resolver_searches (s : state) (folder content : string)
    (target_names : pyjson) :
  files s !! os_path.join folder "target_names.json" = Some (File content) →
  json_loads content = Ok target_names →
  py_len target_names = Some 2 →
  run (_get_model_and_data folder) s =
  let s' := after [EvOpen (os_path.join folder "target_names.json");
                   EvJsonLoad; EvGlob "*.yaml"] s in
  match glob.glob1 (files s) "" "*.yaml" with
  | [] => (Raise (FileNotFoundError no_config_message), s')
  | [yaml] =>
      run (load_config_data_model folder
             (os_path.join folder "model.joblib") [yaml]) s'
  | _ :: _ :: _ => (Raise (FileNotFoundError many_configs_message), s')
  end.
Proof.
  intros Hfile Hjson Hlen.
  rewrite (resolver_reads_metadata s folder content target_names 2) by done.
  unfold after_count. simpl negb. cbv iota.
  rewrite run_bind, run_glob_here by reflexivity.
  rewrite after_after, files_after. simpl app.
  destruct (glob.glob1 (files s) "" "*.yaml") as [|y [|y' l]]; reflexivity.
Qed.

End resolver_facts.

(** ** The resolver: class count and configuration search *)

(** C1: when the class-label file parses to a list whose length is not 2,
    the resolver raises the not-binary exception whose message carries that
    length, and the only calls it has made are opening and parsing the
    metadata file: no search, no configuration or data loading, no
    deserialization, and the file store is untouched. *)
Theorem C1_not_binary_stops_after_metadata `{Diagnostics}
    (s : state) (folder content : string) (target_names : list pyjson) :
  files s !! os_path.join folder "target_names.json" = Some (File content) →
  json_loads content = Ok (JList target_names) →
  length target_names ≠ 2 →
  run (_get_model_and_data folder) s =
  (Raise (Exception ("The model must have 2 classes, but has "
                     +:+ pretty (length target_names) +:+ " classes.")),
   after [EvOpen (os_path.join folder "target_names.json"); EvJsonLoad] s).
Proof.
  intros Hfile Hjson Hlen.
  rewrite (resolver_reads_metadata s folder content (JList target_names)
             (length target_names)) by done.
  unfold after_count.
  destruct (Nat.eqb_spec (length target_names) 2) as [Heq|_]; [done|].
  reflexivity.
Qed.

Lemma C1_three_labels :
  files demo.three_classes !! os_path.join "m" "target_names.json"
    = Some (File demo.three_names) ∧
  json_loads demo.three_names = Ok (JList [JStr "a"; JStr "b"; JStr "c"]) ∧
  run (_get_model_and_data "m") demo.three_classes =
  (Raise (Exception "The model must have 2 classes, but has 3 classes."),
   after [EvOpen "m/target_names.json"; EvJsonLoad] demo.three_classes).
Proof.
  assert (Hfile : files demo.three_classes !! os_path.join "m" "target_names.json"
                  = Some (File demo.three_names)) by (vm_compute; reflexivity).
  assert (Hjson : json_loads demo.three_names
                  = Ok (JList [JStr "a"; JStr "b"; JStr "c"]))
    by (vm_compute; reflexivity).
  split; [exact Hfile|]. split; [exact Hjson|].
  apply (C1_not_binary_stops_after_metadata demo.three_classes "m"
           demo.three_names [JStr "a"; JStr "b"; JStr "c"] Hfile Hjson).
  simpl. lia.
Defined.

(** C2: once the metadata has two entries, the outcome is decided by the
    number of matches of the search alone: none raises the missing
    configuration error, two or more raise the ambiguous configuration error
    without loading any of them, and exactly one goes on to load that
    configuration, the data and the model. *)
Theorem C2_search_outcomes `{Diagnostics}
    (s : state) (folder content : string) (target_names : pyjson) :
  files s !! os_path.join folder "target_names.json" = Some (File content) →
  json_loads content = Ok target_names →
  py_len target_names = Some 2 →
  let s' := after [EvOpen (os_path.join folder "target_names.json");
                   EvJsonLoad; EvGlob "*.yaml"] s in
  match glob.glob1 (files s) "" "*.yaml" with
  | [] =>
      run (_get_model_and_data folder) s =
      (Raise (FileNotFoundError
                "There is no config file (with .yaml extension)."), s')
  | [yaml] =>
      run (_get_model_and_data folder) s =
      run (config ← get_config (os_path.join folder yaml);
           '(_, X_test, _, y_test) ← load_data config;
           model ← joblib.load (os_path.join folder "model.joblib");
           mret (model, X_test, y_test)) s'
  | _ :: _ :: _ =>
      run (_get_model_and_data folder) s =
      (Raise (FileNotFoundError
                "There are more then one config files (with .yaml extension)."),
       s')
  end.
Proof.
  intros Hfile Hjson Hlen.
  pose proof (resolver_searches s folder content target_names Hfile Hjson Hlen)
    as Hrun.
  simpl in Hrun |- *.
  destruct (glob.glob1 (files s) "" "*.yaml") as [|y [|y' l]]; exact Hrun.
Qed.

Lemma C2_none_one_many :
  run (_get_model_and_data "m") demo.elsewhere =
    (Raise (FileNotFoundError
              "There is no config file (with .yaml extension)."),
     after [EvOpen "m/target_names.json"; EvJsonLoad; EvGlob "*.yaml"]
       demo.elsewhere) ∧
  run (_get_model_and_data "") demo.inside =
    run (config ← get_config "cfg.yaml";
         '(_, X_test, _, y_test) ← load_data config;
         model ← joblib.load "model.joblib";
         mret (model, X_test, y_test))
      (after [EvOpen "target_names.json"; EvJsonLoad; EvGlob "*.yaml"]
         demo.inside) ∧
  run (_get_model_and_data "") demo.two_configs =
    (Raise (FileNotFoundError
              "There are more then one config files (with .yaml extension)."),
     after [EvOpen "target_names.json"; EvJsonLoad; EvGlob "*.yaml"]
       demo.two_configs).
Proof.
  assert (Hjson : json_loads demo.two_names = Ok (JList [JStr "a"; JStr "b"]))
    by (vm_compute; reflexivity).
  split; [|split].
  - exact (C2_search_outcomes demo.elsewhere "m" demo.two_names
             (JList [JStr "a"; JStr "b"])
             ltac:(vm_compute; reflexivity) Hjson eq_refl).
  - exact (C2_search_outcomes demo.inside "" demo.two_names
             (JList [JStr "a"; JStr "b"])
             ltac:(vm_compute; reflexivity) Hjson eq_refl).
  - exact (C2_search_outcomes demo.two_configs "" demo.two_names
             (JList [JStr "a"; JStr "b"])
             ltac:(vm_compute; reflexivity) Hjson eq_refl).
Defined.

(** ** The resolver: which configuration is loaded, and the model *)

Lemma child_name_here (k n : string) : child_name "" k = Some n → n = k.
Proof.
  unfold child_name. simpl.
  destruct (String.eqb k "" || has_char "/" k); congruence.
Qed.

Lemma listdir_here_present (fs : gmap string node) (n : string) :
  n ∈ listdir fs "" → is_Some (fs !! n).
Proof.
  unfold listdir. rewrite list_elem_of_omap.
  intros (k & Hk & Hname). apply child_name_here in Hname as ->.
  apply list_elem_of_fmap in Hk as ([k' v] & -> & Hkv).
  apply elem_of_map_to_list in Hkv. simpl. eauto.
Qed.

(** A match of a search in the working directory is an entry of the
    working directory. *)
Lemma glob1_here_present (fs : gmap string node) (pat n : string) :
  n ∈ glob.glob1 fs "" pat → is_Some (fs !! n).
Proof.
  unfold glob.glob1. intros Hin.
  apply list_elem_of_filter in Hin as [_ Hin].
  destruct (glob._ishidden pat).
  - by apply listdir_here_present.
  - apply list_elem_of_filter in Hin as [_ Hin]. by apply listdir_here_present.
Qed.

Section resolver_tail.
Context `{Diagnostics}.

(** Lines 57-70 on a list of one match, case by case. *)
Lemma run_load_one (folder yaml : string) (s : state) :
  let path_to_config := os_path.join folder yaml in
  let path_to_model := os_path.join folder "model.joblib" in
  run (config ← get_config path_to_config;
       '(_, X_test, _, y_test) ← load_data config;
       model ← joblib.load path_to_model;
       mret (model, X_test, y_test)) s =
  match get_config_impl (files s) path_to_config with
  | Raise e => (Raise e, after [EvGetConfig path_to_config] s)
  | Ok config =>
      match load_data_impl (files s) config with
      | Raise e => (Raise e, after [EvGetConfig path_to_config; EvLoadData] s)
      | Ok (_, X_test, _, y_test) =>
          (match files s !! path_to_model with
           | Some (File content) =>
               match pickle_loads content with
               | Ok model => Ok (model, X_test, y_test)
               | Raise e => Raise e
               end
           | Some Dir => Raise (IsADirectoryError path_to_model)
           | None => Raise (FileNotFoundError path_to_model)
           end,
           after [EvGetConfig path_to_config; EvLoadData;
                  EvJoblibLoad path_to_model] s)
      end
  end.
Proof.
  intros path_to_config path_to_model.
  rewrite run_bind, run_get_config.
  destruct (get_config_impl (files s) path_to_config) as [config|e]; [|done].
  rewrite run_bind, run_load_data, files_after, after_after. simpl app.
  destruct (load_data_impl (files s) config) as [[[[X_train X_test] y_train] y_test]|e];
    [|done].
  rewrite run_bind, run_joblib_load, files_after, after_after. simpl app.
  destruct (files s !! path_to_model) as [[content|]|]; [|done|done].
  destruct (pickle_loads content) as [model|e]; done.
Qed.

Lemma run_load_one_trace (folder yaml : string) (s : state) :
  EvGetConfig (os_path.join folder yaml) ∈
  trace (run (config ← get_config (os_path.join folder yaml);
              '(_, X_test, _, y_test) ← load_data config;
              model ← joblib.load (os_path.join folder "model.joblib");
              mret (model, X_test, y_test)) s).2.
Proof.
  rewrite run_load_one. cbv zeta.
  destruct (get_config_impl _ _) as [config|e]; simpl.
  - destruct (load_data_impl _ _) as [[[[X_train X_test] y_train] y_test]|e];
      simpl; set_solver.
  - set_solver.
Qed.

End resolver_tail.

(** C3: a model folder [m] that holds its classifier, two class labels and
    exactly one configuration file is rejected with the missing
    configuration error when the working directory holds no configuration,
    and a model folder without any configuration passes the search when the
    working directory holds one: the search counts the entries of the
    working directory, whatever the model folder contains. *)
Theorem C3_search_counts_working_directory :
  glob.glob1 (files demo.elsewhere) "m" "*.yaml" = ["cfg.yaml"] ∧
  glob.glob1 (files demo.elsewhere) "" "*.yaml" = [] ∧
  (run (_get_model_and_data "m") demo.elsewhere).1 =
    Raise (FileNotFoundError "There is no config file (with .yaml extension).") ∧
  glob.glob1 (files demo.stray_config) "m" "*.yaml" = [] ∧
  glob.glob1 (files demo.stray_config) "" "*.yaml" = ["cfg.yaml"] ∧
  trace (run (_get_model_and_data "m") demo.stray_config).2 =
    [EvOpen "m/target_names.json"; EvJsonLoad; EvGlob "*.yaml";
     EvGetConfig "m/cfg.yaml"].
Proof. repeat split; vm_compute; reflexivity. Qed.

(** C4: whenever the search succeeds with one match, that match is an entry
    of the working directory, and the configuration the resolver loads is
    the model folder joined with the match's name; so there are calls, with
    a model folder other than the working directory, in which the search
    succeeds and the path loaded names no file at all. *)
Theorem C4_loaded_config_is_folder_joined_with_match :
  (∀ (D : Diagnostics) (s : state) (folder content : string)
     (target_names : pyjson) (yaml : string),
     files s !! os_path.join folder "target_names.json" = Some (File content) →
     json_loads content = Ok target_names →
     py_len target_names = Some 2 →
     glob.glob1 (files s) "" "*.yaml" = [yaml] →
     is_Some (files s !! yaml) ∧
     run (_get_model_and_data folder) s =
       run (config ← get_config (os_path.join folder yaml);
            '(_, X_test, _, y_test) ← load_data config;
            model ← joblib.load (os_path.join folder "model.joblib");
            mret (model, X_test, y_test))
         (after [EvOpen (os_path.join folder "target_names.json");
                 EvJsonLoad; EvGlob "*.yaml"] s) ∧
     EvGetConfig (os_path.join folder yaml)
       ∈ trace (run (_get_model_and_data folder) s).2) ∧
  (∃ (D : Diagnostics) (s : state) (folder yaml : string),
     folder ≠ "" ∧
     glob.glob1 (files s) "" "*.yaml" = [yaml] ∧
     files s !! os_path.join folder yaml = None ∧
     EvGetConfig (os_path.join folder yaml)
       ∈ trace (run (_get_model_and_data folder) s).2).
Proof.
  split.
  - intros D s folder content target_names yaml Hfile Hjson Hlen Hglob.
    pose proof (resolver_searches s folder content target_names
                  Hfile Hjson Hlen) as Hrun.
    cbv zeta in Hrun. rewrite Hglob in Hrun.
    split; [|split].
    + apply (glob1_here_present _ "*.yaml"). rewrite Hglob. set_solver.
    + exact Hrun.
    + rewrite Hrun. unfold load_config_data_model.
      apply run_load_one_trace.
  - exists demo.world, demo.stray_config, "m", "cfg.yaml".
    split; [done|]. split; [by vm_compute|]. split; [by vm_compute|].
    vm_compute. set_solver.
Qed.

Lemma C4_stray_config :
  is_Some (files demo.stray_config !! "cfg.yaml") ∧
  run (_get_model_and_data "m") demo.stray_config =
    run (config ← get_config "m/cfg.yaml";
         '(_, X_test, _, y_test) ← load_data config;
         model ← joblib.load "m/model.joblib";
         mret (model, X_test, y_test))
      (after [EvOpen "m/target_names.json"; EvJsonLoad; EvGlob "*.yaml"]
         demo.stray_config) ∧
  EvGetConfig "m/cfg.yaml"
    ∈ trace (run (_get_model_and_data "m") demo.stray_config).2.
Proof.
  exact (proj1 C4_loaded_config_is_folder_joined_with_match
           demo.world demo.stray_config "m" demo.two_names
           (JList [JStr "a"; JStr "b"]) "cfg.yaml"
           ltac:(vm_compute; reflexivity) ltac:(vm_compute; reflexivity)
           eq_refl ltac:(vm_compute; reflexivity)).
Defined.

(** C5: the classifier path is only computed at first; the file is touched
    by the last call alone. Once class count, search, configuration and data
    loading have succeeded, a missing classifier file makes that last call,
    [joblib.load], raise; when the file unpickles, the resolver returns the
    classifier with the test inputs and test labels, and the training inputs
    and labels are dropped. *)
Theorem C5_classifier_is_loaded_last `{Diagnostics}
    (s : state) (folder content : string) (target_names : pyjson)
    (yaml : string) (config : Config)
    (X_train X_test y_train y_test : ndarray) :
  files s !! os_path.join folder "target_names.json" = Some (File content) →
  json_loads content = Ok target_names →
  py_len target_names = Some 2 →
  glob.glob1 (files s) "" "*.yaml" = [yaml] →
  get_config_impl (files s) (os_path.join folder yaml) = Ok config →
  load_data_impl (files s) config = Ok (X_train, X_test, y_train, y_test) →
  let path_to_model := os_path.join folder "model.joblib" in
  run (_get_model_and_data folder) s =
  (match files s !! path_to_model with
   | None => Raise (FileNotFoundError path_to_model)
   | Some Dir => Raise (IsADirectoryError path_to_model)
   | Some (File pickled) =>
       match pickle_loads pickled with
       | Ok model => Ok (model, X_test, y_test)
       | Raise e => Raise e
       end
   end,
   after [EvOpen (os_path.join folder "target_names.json"); EvJsonLoad;
          EvGlob "*.yaml"; EvGetConfig (os_path.join folder yaml);
          EvLoadData; EvJoblibLoad path_to_model] s).
Proof.
  intros Hfile Hjson Hlen Hglob Hconfig Hdata path_to_model.
  pose proof (resolver_searches s folder content target_names
                Hfile Hjson Hlen) as Hrun.
  cbv zeta in Hrun. rewrite Hglob in Hrun. rewrite Hrun.
  unfold load_config_data_model.
  change (getitem [yaml] 0) with (mret yaml : M string).
  rewrite run_bind, run_ret, run_load_one. cbv zeta.
  rewrite files_after, Hconfig, Hdata, after_after. simpl app.
  fold path_to_model.
  destruct (files s !! path_to_model) as [[pickled|]|]; reflexivity.
Qed.

Lemma C5_present_and_missing :
  run (_get_model_and_data "") demo.inside =
    (Ok ("weights", [20; 21], [1; 0]),
     after [EvOpen "target_names.json"; EvJsonLoad; EvGlob "*.yaml";
            EvGetConfig "cfg.yaml"; EvLoadData; EvJoblibLoad "model.joblib"]
       demo.inside) ∧
  run (_get_model_and_data "") demo.no_model =
    (Raise (FileNotFoundError "model.joblib"),
     after [EvOpen "target_names.json"; EvJsonLoad; EvGlob "*.yaml";
            EvGetConfig "cfg.yaml"; EvLoadData; EvJoblibLoad "model.joblib"]
       demo.no_model).
Proof.
  assert (Hjson : json_loads demo.two_names = Ok (JList [JStr "a"; JStr "b"]))
    by (vm_compute; reflexivity).
  split.
  - exact (C5_classifier_is_loaded_last demo.inside "" demo.two_names
             (JList [JStr "a"; JStr "b"]) "cfg.yaml" "seed: 1"
             [10; 11; 12] [20; 21] [0; 1; 0] [1; 0]
             ltac:(vm_compute; reflexivity) Hjson eq_refl
             ltac:(vm_compute; reflexivity) ltac:(vm_compute; reflexivity)
             eq_refl).
  - exact (C5_classifier_is_loaded_last demo.no_model "" demo.two_names
             (JList [JStr "a"; JStr "b"]) "cfg.yaml" "seed: 1"
             [10; 11; 12] [20; 21] [0; 1; 0] [1; 0]
             ltac:(vm_compute; reflexivity) Hjson eq_refl
             ltac:(vm_compute; reflexivity) ltac:(vm_compute; reflexivity)
             eq_refl).
Defined.

(** ** The model file the resolver reads *)





Section round_trip.
Context `{Diagnostics}.


End round_trip.

(** ** Curve derivation *)

(** C7: when the signature of [roc_curve] has no parameter named
    [probas_pred], every call of [get_roc_curve] whose resolver call and
    probability prediction succeed ends in a [TypeError] raised while
    binding the keywords: no rate sequences are returned. *)
Theorem C7_get_roc_curve_raises_on_its_keyword `{Diagnostics}
    (s s' : state) (folder : string) (model : Estimator)
    (X_test y_test probas : ndarray) :
  "probas_pred" ∉ (required roc_curve_sig ++ optional roc_curve_sig)%list →
  run (_get_model_and_data folder) s = (Ok (model, X_test, y_test), s') →
  predict_proba model X_test = Ok probas →
  ∃ msg, run (get_roc_curve folder) s = (Raise (TypeError msg), s').
Proof.
  intros Hkeyword Hresolve Hprobas. unfold get_roc_curve.
  rewrite run_bind, Hresolve. cbv beta iota.
  rewrite run_bind, run_lift, Hprobas. cbv beta iota.
  unfold call_kw. rewrite !run_bind, run_lift. unfold bind_keywords.
  rewrite filter_cons. case_decide.
  - eexists. reflexivity.
  - rewrite filter_cons_True by exact Hkeyword.
    eexists. reflexivity.
Qed.

Lemma C7_declared_signature :
  run (_get_model_and_data "") demo.inside =
    (Ok ("weights", [20; 21], [1; 0]),
     (run (_get_model_and_data "") demo.inside).2) ∧
  ∃ msg, run (get_roc_curve "") demo.inside =
         (Raise (TypeError msg), (run (_get_model_and_data "") demo.inside).2).
Proof.
  assert (Hresolve : run (_get_model_and_data "") demo.inside =
                     (Ok ("weights", [20; 21], [1; 0]),
                      (run (_get_model_and_data "") demo.inside).2))
    by (vm_compute; reflexivity).
  split; [exact Hresolve|].
  refine (C7_get_roc_curve_raises_on_its_keyword demo.inside _ ""
            "weights" [20; 21] [1; 0] [27; 28] _ Hresolve eq_refl).
  simpl. rewrite !not_elem_of_cons.
  repeat (split; [discriminate|]). apply not_elem_of_nil.
Defined.

Section curve_facts.
Context `{Diagnostics}.

Lemma run_plot_precision_recall_curve (s : state) (p r : ndarray) :
  run (plot_precision_recall_curve p r) s
  = (Ok (mkPrecisionRecallDisplay p r), s).
Proof. reflexivity. Qed.

Lemma run_plot_roc_curve (s : state) (f t : ndarray) :
  run (plot_roc_curve f t) s = (Ok (mkRocCurveDisplay f t), s).
Proof. reflexivity. Qed.

End curve_facts.

(** C10: both plot functions return, in every state, the display whose
    fields are the two sequences given, and leave the state as it was: the
    file store is not read or written and no call is recorded, so the
    display is a function of the coordinates alone. *)
Theorem C10_plots_only_wrap_their_coordinates `{Diagnostics}
    (s : state) (a b : ndarray) :
  (∃ d, run (plot_precision_recall_curve a b) s = (Ok d, s) ∧
        precision d = a ∧ recall d = b ∧
        ∀ s', (run (plot_precision_recall_curve a b) s').1 = Ok d) ∧
  (∃ d, run (plot_roc_curve a b) s = (Ok d, s) ∧
        fpr d = a ∧ tpr d = b ∧
        ∀ s', (run (plot_roc_curve a b) s').1 = Ok d).
Proof.
  split.
  - exists (mkPrecisionRecallDisplay a b).
    rewrite run_plot_precision_recall_curve. repeat split.
  - exists (mkRocCurveDisplay a b).
    rewrite run_plot_roc_curve. repeat split.
Qed.

(** ** The training script *)

Lemma makedirs_directory (fs : gmap string node) (ro : bool) :
  os.makedirs_files (String.length directory) fs ro directory
  = os.mkdir_files fs ro directory.
Proof. reflexivity. Qed.

Lemma run_makedirs_if_absent (s : state) :
  run makedirs_if_absent s =
  if bool_decide (is_Some (files s !! directory))
  then (Ok (), after [EvExists directory] s)
  else
    match os.mkdir_files (files s) (readonly s) directory with
    | Ok fs' =>
        (Ok (), set_files fs' (after [EvExists directory; EvMakedirs directory] s))
    | Raise e =>
        (Raise e, after [EvExists directory; EvMakedirs directory] s)
    end.
Proof.
  unfold makedirs_if_absent. rewrite run_bind.
  change (run (os_path.exists_ directory) s)
    with (Ok (bool_decide (is_Some (files s !! directory))),
          after [EvExists directory] s).
  cbv beta iota.
  destruct (bool_decide (is_Some (files s !! directory)));
    simpl negb; cbv iota; [apply run_ret|].
  unfold run, os.makedirs. rewrite log_after, files_after.
  change (readonly (after [EvExists directory] s)) with (readonly s).
  rewrite makedirs_directory.
  destruct (os.mkdir_files (files s) (readonly s) directory);
    cbv zeta; rewrite ?log_after, ?after_after; reflexivity.
Qed.

Lemma mkdir_files_ok (fs fs' : gmap string node) (ro : bool) (name : string) :
  os.mkdir_files fs ro name = Ok fs' → fs' = <[name := Dir]> fs.
Proof.
  unfold os.mkdir_files. repeat case_match; naive_solver.
Qed.

(** After a successful creation step the directory is there. *)
Lemma makedirs_if_absent_ok_present (s s' : state) :
  run makedirs_if_absent s = (Ok (), s') → is_Some (files s' !! directory).
Proof.
  rewrite run_makedirs_if_absent. case_bool_decide as Hpresent.
  - by intros [= <-].
  - destruct (os.mkdir_files _ _ _) as [fs'|] eqn:Hmk; [|discriminate].
    intros [= <-]. apply mkdir_files_ok in Hmk as ->. simpl.
    rewrite lookup_insert_eq. eauto.
Qed.

(** C9: when the artifacts directory already exists, in particular right
    after a call of the creation step that succeeded, the creation step
    succeeds: it only checks for the directory, calls [os.makedirs] not at
    all, and leaves the file store as it is, read-only or not. *)
Theorem C9_creation_step_is_idempotent (s : state) :
  is_Some (files s !! directory) ∨
    (∃ s0, run makedirs_if_absent s0 = (Ok (), s)) →
  run makedirs_if_absent s = (Ok (), after [EvExists directory] s).
Proof.
  intros Hpresent.
  assert (is_Some (files s !! directory)) as Hdir.
  { destruct Hpresent as [Hdir|[s0 Hfirst]]; [done|].
    by apply makedirs_if_absent_ok_present in Hfirst. }
  rewrite run_makedirs_if_absent. by rewrite bool_decide_eq_true_2.
Qed.

Lemma C9_twice :
  let first := run makedirs_if_absent demo.short_test in
  first.1 = Ok () ∧
  trace first.2 = [EvExists "saved_models"; EvMakedirs "saved_models"] ∧
  run makedirs_if_absent first.2
  = (Ok (), after [EvExists "saved_models"] first.2).
Proof.
  intros first.
  assert (Hfirst : run makedirs_if_absent demo.short_test = (Ok (), first.2))
    by (vm_compute; reflexivity).
  split; [by vm_compute|]. split; [by vm_compute|].
  apply C9_creation_step_is_idempotent. right. by exists demo.short_test.
Defined.

Section training_facts.
Context `{Training}.

Lemma run_read_csv (p : string) (s : state) :
  run (pd.read_csv p) s =
  (match files s !! p with
   | Some (File content) => read_csv_impl content
   | Some Dir => Raise (IsADirectoryError p)
   | None => Raise (missing_error (files s) p)
   end, after [EvReadCsv p] s).
Proof. reflexivity. Qed.

(** What a completed run of the script has computed, step by step: both
    fits take the columns of the training file, and the test columns only
    pass through [transform] and [predict]. *)
Lemma baseline_ok_inv (s s' : state) (ns : namespace) :
  run baseline s = (Ok ns, s') →
  ∃ train_csv test_csv df_train df_test X_train X_test y_train y_test
    y_train_enc y_test_enc X_train_tfidf X_test_tfidf,
    files s !! "data/data_train.csv" = Some (File train_csv) ∧
    files s !! "data/data_test.csv" = Some (File test_csv) ∧
    read_csv_impl train_csv = Ok df_train ∧
    read_csv_impl test_csv = Ok df_test ∧
    df_getitem df_train "Text" = Ok X_train ∧
    df_getitem df_test "Text" = Ok X_test ∧
    df_getitem df_train "Class" = Ok y_train ∧
    df_getitem df_test "Class" = Ok y_test ∧
    le_fit_transform y_train = Ok (le ns, y_train_enc) ∧
    le_transform (le ns) y_test = Ok y_test_enc ∧
    tfidf_fit_transform X_train = Ok (vectorizer ns, X_train_tfidf) ∧
    tfidf_transform (vectorizer ns) X_test = Ok X_test_tfidf ∧
    logreg_fit X_train_tfidf y_train_enc = Ok (clf ns) ∧
    predict (clf ns) X_test_tfidf = Ok (y_pred ns).
Proof.
  unfold baseline.
  rewrite run_bind, run_read_csv.
  destruct (files s !! "data/data_train.csv") as [[train_csv|]|];
    [|discriminate..].
  destruct (read_csv_impl train_csv) as [df_train|] eqn:Htrain; [|discriminate].
  cbv beta iota. rewrite run_bind, run_read_csv, files_after.
  destruct (files s !! "data/data_test.csv") as [[test_csv|]|];
    [|discriminate..].
  destruct (read_csv_impl test_csv) as [df_test|] eqn:Htest; [|discriminate].
  cbv beta iota. rewrite run_bind, run_lift.
  destruct (df_getitem df_train "Text") as [X_train|] eqn:HX; [|discriminate].
  cbv beta iota. rewrite run_bind, run_lift.
  destruct (df_getitem df_test "Text") as [X_test|] eqn:HXt; [|discriminate].
  cbv beta iota. rewrite run_bind, run_lift.
  destruct (df_getitem df_train "Class") as [y_train|] eqn:Hy; [|discriminate].
  cbv beta iota. rewrite run_bind, run_lift.
  destruct (df_getitem df_test "Class") as [y_test|] eqn:Hyt; [|discriminate].
  cbv beta iota. rewrite run_bind, run_lift.
  destruct (le_fit_transform y_train) as [[le0 y_train_enc]|] eqn:Hle;
    [|discriminate].
  cbv beta iota. rewrite run_bind, run_lift.
  destruct (le_transform le0 y_test) as [y_test_enc|] eqn:Hlet; [|discriminate].
  cbv beta iota. rewrite run_bind, run_lift.
  destruct (tfidf_fit_transform X_train) as [[vec0 X_train_tfidf]|] eqn:Hvec;
    [|discriminate].
  cbv beta iota. rewrite run_bind, run_lift.
  destruct (tfidf_transform vec0 X_test) as [X_test_tfidf|] eqn:Hvect;
    [|discriminate].
  cbv beta iota. rewrite run_bind, run_lift.
  destruct (logreg_fit X_train_tfidf y_train_enc) as [clf0|] eqn:Hclf;
    [|discriminate].
  cbv beta iota. rewrite run_bind, run_lift.
  destruct (predict clf0 X_test_tfidf) as [y_pred0|] eqn:Hpred; [|discriminate].
  cbv beta iota. rewrite run_bind.
  destruct (run (call_kw _ _ _) _) as [[report|] s1]; [|discriminate].
  rewrite run_bind.
  destruct (run (print report) s1) as [[[]|] s2]; [|discriminate].
  rewrite run_bind.
  destruct (run (save_model clf0) s2) as [[path0|] s3]; [|discriminate].
  rewrite run_ret. intros [= <- _].
  exists train_csv, test_csv, df_train, df_test, X_train, X_test, y_train,
    y_test, y_train_enc, y_test_enc, X_train_tfidf, X_test_tfidf.
  simpl. repeat split; assumption || reflexivity.
Qed.

End training_facts.

(** C8: two completed runs of the training script that read the same
    training file end with the same fitted label encoder, the same fitted
    vectorizer and the same classifier, whatever the test file and the rest
    of the file store hold; in each run the test labels and test texts go
    through [transform] of those fitted objects only. *)
Theorem C8_fitting_ignores_the_test_split `{Training}
    (s1 s2 s1' s2' : state) (ns1 ns2 : namespace) :
  files s1 !! "data/data_train.csv" = files s2 !! "data/data_train.csv" →
  run baseline s1 = (Ok ns1, s1') →
  run baseline s2 = (Ok ns2, s2') →
  le ns1 = le ns2 ∧ vectorizer ns1 = vectorizer ns2 ∧ clf ns1 = clf ns2 ∧
  ∃ test_csv df_test X_test y_test y_test_enc X_test_tfidf,
    files s1 !! "data/data_test.csv" = Some (File test_csv) ∧
    read_csv_impl test_csv = Ok df_test ∧
    df_getitem df_test "Text" = Ok X_test ∧
    df_getitem df_test "Class" = Ok y_test ∧
    le_transform (le ns1) y_test = Ok y_test_enc ∧
    tfidf_transform (vectorizer ns1) X_test = Ok X_test_tfidf ∧
    predict (clf ns1) X_test_tfidf = Ok (y_pred ns1).
Proof.
  intros Hsame Hrun1 Hrun2.
  apply baseline_ok_inv in Hrun1
    as (c1 & t1 & d1 & dt1 & X1 & Xt1 & y1 & yt1 & ye1 & yte1 & Xf1 & Xtf1
        & Hf1 & Hft1 & Hd1 & Hdt1 & HX1 & HXt1 & Hy1 & Hyt1 & Hle1 & Hlet1
        & Hv1 & Hvt1 & Hc1 & Hp1).
  apply baseline_ok_inv in Hrun2
    as (c2 & t2 & d2 & dt2 & X2 & Xt2 & y2 & yt2 & ye2 & yte2 & Xf2 & Xtf2
        & Hf2 & Hft2 & Hd2 & Hdt2 & HX2 & HXt2 & Hy2 & Hyt2 & Hle2 & Hlet2
        & Hv2 & Hvt2 & Hc2 & Hp2).
  rewrite Hf1, Hf2 in Hsame. injection Hsame as <-.
  rewrite Hd1 in Hd2. injection Hd2 as <-.
  rewrite HX1 in HX2. injection HX2 as <-.
  rewrite Hy1 in Hy2. injection Hy2 as <-.
  rewrite Hle1 in Hle2. injection Hle2 as Hle Hye. subst ye2.
  rewrite Hv1 in Hv2. injection Hv2 as Hvec HXf. subst Xf2.
  rewrite Hc1 in Hc2. injection Hc2 as Hclf.
  split; [done|]. split; [done|]. split; [done|].
  exists t1, dt1, Xt1, yt1, yte1, Xtf1. repeat split; assumption.
Qed.

Lemma C8_short_and_long_test :
  let ns1 := mkNamespace ("Class", ",Text,Class") ("Text", ",Text,Class")
               "logreg22" [11; 11] "saved_models/log_reg_tf_idf.joblib" in
  let ns2 := mkNamespace ("Class", ",Text,Class") ("Text", ",Text,Class")
               "logreg22" [11; 16] "saved_models/log_reg_tf_idf.joblib" in
  (run baseline demo.short_test).1 = Ok ns1 ∧
  (run baseline demo.long_test).1 = Ok ns2 ∧
  le ns1 = le ns2 ∧ vectorizer ns1 = vectorizer ns2 ∧ clf ns1 = clf ns2.
Proof.
  intros ns1 ns2.
  assert (Hshort : run baseline demo.short_test
                   = (Ok ns1, (run baseline demo.short_test).2))
    by (vm_compute; reflexivity).
  assert (Hlong : run baseline demo.long_test
                  = (Ok ns2, (run baseline demo.long_test).2))
    by (vm_compute; reflexivity).
  split; [by rewrite Hshort|]. split; [by rewrite Hlong|].
  pose proof (C8_fitting_ignores_the_test_split demo.short_test
                demo.long_test _ _ ns1 ns2
                ltac:(vm_compute; reflexivity) Hshort Hlong) as Hfit.
  destruct Hfit as (Hle & Hvec & Hclf & _).
  exact (conj Hle (conj Hvec Hclf)).
Defined.

(** * Beyond the claims *)

(** ** Computations that only read *)

Lemma read_only_ret {A} (a : A) : read_only (mret a : M A).
Proof. intros s. exists []. unfold after. simpl. rewrite app_nil_r. by destruct s. Qed.

Lemma read_only_raise {A} (e : exn) : read_only (raise e : M A).
Proof. intros s. exists []. unfold after. simpl. rewrite app_nil_r. by destruct s. Qed.

Lemma read_only_lift {A} (r : result A) : read_only (lift r).
Proof. intros s. exists []. unfold after. simpl. rewrite app_nil_r. by destruct s. Qed.

Lemma read_only_bind {A B} (m : M A) (f : A → M B) :
  read_only m → (∀ a, read_only (f a)) → read_only (m ≫= f).
Proof.
  intros Hm Hf s. rewrite run_bind. destruct (Hm s) as [evs Hs].
  destruct (run m s) as [[a|e] s1]; simpl in Hs; subst s1.
  - destruct (Hf a (after evs s)) as [evs' Hs']. exists (evs ++ evs')%list.
    by rewrite Hs', after_after.
  - by exists evs.
Qed.

Lemma read_only_call_kw {V R} (sig : signature) (body : list V → result R)
    (kwargs : list (string * V)) : read_only (call_kw sig body kwargs).
Proof.
  unfold call_kw. apply read_only_bind; [apply read_only_lift|].
  intros args. apply read_only_lift.
Qed.

(** ** The resolver beyond the claims *)


(** The metadata step on a folder that is a model file, and on a folder
    that does not exist. *)
Example metadata_under_a_model_file :
  run (_get_model_and_data "model.joblib") demo.inside =
  (Raise (NotADirectoryError "model.joblib/target_names.json"),
   after [EvOpen "model.joblib/target_names.json"] demo.inside).
Proof. vm_compute. reflexivity. Qed.

Example metadata_in_no_folder :
  run (_get_model_and_data "nowhere") demo.inside =
  (Raise (FileNotFoundError "nowhere/target_names.json"),
   after [EvOpen "nowhere/target_names.json"] demo.inside).
Proof. vm_compute. reflexivity. Qed.

(** X2: the class count is the length of whatever the metadata file parses
    to. A JSON object with two keys, or a JSON string of two characters,
    passes the count like a list of two labels does, and the resolver goes
    on to search for the configuration. *)
Theorem X2_count_accepts_any_value_of_length_two `{Diagnostics}
    (s : state) (folder content : string) (target_names : pyjson) :
  files s !! os_path.join folder "target_names.json" = Some (File content) →
  json_loads content = Ok target_names →
  (∃ k1 v1 k2 v2, target_names = JDict [(k1, v1); (k2, v2)]) ∨
  (∃ c1 c2, target_names = JStr (String c1 (String c2 EmptyString))) →
  ∃ evs,
    trace (run (_get_model_and_data folder) s).2 =
    (trace s ++ [EvOpen (os_path.join folder "target_names.json");
                 EvJsonLoad; EvGlob "*.yaml"] ++ evs)%list.
Proof.
  intros Hfile Hjson Hkind.
  assert (py_len target_names = Some 2) as Hlen.
  { destruct Hkind as [(k1 & v1 & k2 & v2 & ->)|(c1 & c2 & ->)]; reflexivity. }
  rewrite (resolver_searches s folder content target_names Hfile Hjson Hlen).
  cbv zeta.
  destruct (glob.glob1 (files s) "" "*.yaml") as [|yaml [|yaml' l]].
  - by exists [].
  - unfold load_config_data_model.
    change (getitem [yaml] 0) with (mret yaml : M string).
    rewrite run_bind, run_ret, run_load_one. cbv zeta.
    destruct (get_config_impl _ _) as [config|e]; simpl.
    + destruct (load_data_impl _ _)
        as [[[[X_train X_test] y_train] y_test]|e]; simpl;
        rewrite <- !app_assoc; simpl; eexists; reflexivity.
    + rewrite <- !app_assoc; simpl; eexists; reflexivity.
  - by exists [].
Qed.

Lemma X2_two_characters :
  ∃ evs,
    trace (run (@_get_model_and_data demo.text_world "")
             demo.string_metadata).2
    = ([] ++ [EvOpen "target_names.json"; EvJsonLoad; EvGlob "*.yaml"]
          ++ evs)%list.
Proof.
  exact (@X2_count_accepts_any_value_of_length_two demo.text_world
           demo.string_metadata "" (demo.q +:+ "ab" +:+ demo.q) (JStr "ab")
           ltac:(vm_compute; reflexivity) ltac:(vm_compute; reflexivity)
           (or_intror (ex_intro _ "a"%char (ex_intro _ "b"%char eq_refl)))).
Defined.

(** X3: after a successful search, an exception of [get_config] is the
    resolver's exception and neither the data loader nor the unpickler is
    called; an exception of [load_data] is the resolver's exception and the
    unpickler is not called. The model file is not looked at in either
    case. *)
Theorem X3_loading_errors_stop_the_resolver `{Diagnostics}
    (s : state) (folder content : string) (target_names : pyjson)
    (yaml : string) :
  files s !! os_path.join folder "target_names.json" = Some (File content) →
  json_loads content = Ok target_names →
  py_len target_names = Some 2 →
  glob.glob1 (files s) "" "*.yaml" = [yaml] →
  let p := os_path.join folder "target_names.json" in
  let c := os_path.join folder yaml in
  (∀ e, get_config_impl (files s) c = Raise e →
        run (_get_model_and_data folder) s =
        (Raise e, after [EvOpen p; EvJsonLoad; EvGlob "*.yaml";
                         EvGetConfig c] s)) ∧
  (∀ config e,
     get_config_impl (files s) c = Ok config →
     load_data_impl (files s) config = Raise e →
     run (_get_model_and_data folder) s =
     (Raise e, after [EvOpen p; EvJsonLoad; EvGlob "*.yaml";
                      EvGetConfig c; EvLoadData] s)).
Proof.
  intros Hfile Hjson Hlen Hglob p c.
  pose proof (resolver_searches s folder content target_names
                Hfile Hjson Hlen) as Hrun.
  cbv zeta in Hrun. rewrite Hglob in Hrun. rewrite Hrun.
  unfold load_config_data_model.
  change (getitem [yaml] 0) with (mret yaml : M string).
  rewrite run_bind, run_ret, run_load_one. cbv zeta.
  rewrite files_after. fold c. split.
  - intros e ->. by rewrite after_after.
  - intros config e -> ->. by rewrite after_after.
Qed.

Lemma X3_config_outside_the_folder :
  run (_get_model_and_data "m") demo.unreadable_config =
  (Raise (FileNotFoundError "m/cfg.yaml"),
   after [EvOpen "m/target_names.json"; EvJsonLoad; EvGlob "*.yaml";
          EvGetConfig "m/cfg.yaml"] demo.unreadable_config).
Proof.
  exact (proj1 (X3_loading_errors_stop_the_resolver demo.unreadable_config
                  "m" demo.two_names (JList [JStr "a"; JStr "b"]) "cfg.yaml"
                  ltac:(vm_compute; reflexivity) ltac:(vm_compute; reflexivity)
                  eq_refl ltac:(vm_compute; reflexivity))
           (FileNotFoundError "m/cfg.yaml") ltac:(vm_compute; reflexivity)).
Defined.

(** X5: an exception of the resolver is the exception of both curve
    functions, in the same state: no probabilities are predicted and no
    curve function of scikit-learn is called. *)
Theorem X5_curves_pass_on_resolver_errors `{Diagnostics}
    (s s' : state) (folder : string) (e : exn) :
  run (_get_model_and_data folder) s = (Raise e, s') →
  run (get_precision_recall_curve folder) s = (Raise e, s') ∧
  run (get_roc_curve folder) s = (Raise e, s').
Proof.
  intros Hresolve. unfold get_precision_recall_curve, get_roc_curve.
  by rewrite !run_bind, Hresolve.
Qed.

Lemma X5_three_classes :
  let s' := (run (_get_model_and_data "m") demo.three_classes).2 in
  let e := Exception "The model must have 2 classes, but has 3 classes." in
  run (get_precision_recall_curve "m") demo.three_classes = (Raise e, s') ∧
  run (get_roc_curve "m") demo.three_classes = (Raise e, s').
Proof.
  intros s' e.
  assert (Hresolve : run (_get_model_and_data "m") demo.three_classes
                     = (Raise e, s')) by (vm_compute; reflexivity).
  exact (X5_curves_pass_on_resolver_errors demo.three_classes s' "m" e
           Hresolve).
Defined.

(** X6: when the signature of [precision_recall_curve] has exactly the
    parameters [y_true] and [probas_pred] without default, a call of
    [get_precision_recall_curve] whose resolver call and prediction succeed
    returns what [precision_recall_curve] computes from the test labels and
    the predicted probabilities of the test inputs, bound by name, and its
    exception if it raises; the state is the one the resolver left. *)
Theorem X6_precision_recall_curve_of_test_split `{Diagnostics}
    (s s' : state) (folder : string) (model : Estimator)
    (X_test y_test probas : ndarray) :
  required precision_recall_curve_sig = ["y_true"; "probas_pred"] →
  run (_get_model_and_data folder) s = (Ok (model, X_test, y_test), s') →
  predict_proba model X_test = Ok probas →
  run (get_precision_recall_curve folder) s =
  (precision_recall_curve_impl [y_test; probas], s').
Proof.
  intros Hsig Hresolve Hprobas. unfold get_precision_recall_curve.
  rewrite run_bind, Hresolve. cbv beta iota.
  rewrite run_bind, run_lift, Hprobas. cbv beta iota.
  unfold call_kw. rewrite !run_bind, run_lift. unfold bind_keywords.
  rewrite Hsig.
  rewrite filter_cons_False by (intros Hout; apply Hout; set_solver).
  rewrite filter_cons_False by (intros Hout; apply Hout; set_solver).
  rewrite filter_nil.
  assert (mapM (kwlookup [("y_true", y_test); ("probas_pred", probas)])
            ["y_true"; "probas_pred"] = Some [y_test; probas]) as ->
    by reflexivity.
  rewrite run_lift.
  destruct (precision_recall_curve_impl [y_test; probas])
    as [[[precision recall] thresholds]|e]; reflexivity.
Qed.

Lemma X6_in_the_model_folder :
  run (get_precision_recall_curve "") demo.inside =
  (Ok ([1; 0], [27; 28], [27; 28]),
   (run (_get_model_and_data "") demo.inside).2).
Proof.
  exact (X6_precision_recall_curve_of_test_split demo.inside
           (run (_get_model_and_data "") demo.inside).2 ""
           "weights" [20; 21] [1; 0] [27; 28] eq_refl
           ltac:(vm_compute; reflexivity) eq_refl).
Defined.

Lemma listdir_here_name (fs : gmap string node) (n : string) :
  n ∈ listdir fs "" → has_char "/" n = false ∧ n ≠ "".
Proof.
  unfold listdir. rewrite list_elem_of_omap.
  intros (k & _ & Hname). unfold child_name in Hname. simpl in Hname.
  destruct (String.eqb k "") eqn:Hempty; [discriminate|].
  destruct (has_char "/" k) eqn:Hsep; [discriminate|].
  simpl in Hname. injection Hname as <-.
  split; [done|]. intros ->. discriminate.
Qed.

Lemma join_bare_name (folder n : string) :
  has_char "/" n = false →
  os_path.join folder n =
  if String.eqb folder "" || endswith folder "/" then folder +:+ n
  else folder +:+ "/" +:+ n.
Proof.
  intros Hsep. unfold os_path.join.
  assert (startswith n "/" = false) as ->; [|done].
  destruct n as [|c n]; [done|].
  cbn [has_char] in Hsep. apply orb_false_elim in Hsep as [Hc _].
  unfold startswith. cbn [String.prefix].
  destruct (ascii_dec "/" c) as [<-|_];
    [by rewrite Ascii.eqb_refl in Hc|reflexivity].
Qed.

(** X7: the search looks at the working directory only, one level deep:
    every match is an entry of the working directory whose name holds no
    separator, does not start with a dot and ends with [.yaml]. The
    configuration path built from a match is therefore the model folder
    followed by that bare name, never the match on its own. *)
Theorem X7_matches_are_bare_names (fs : gmap string node) (folder n : string) :
  n ∈ glob.glob1 fs "" "*.yaml" →
  is_Some (fs !! n) ∧
  has_char "/" n = false ∧ startswith n "." = false ∧
  endswith n ".yaml" = true ∧
  os_path.join folder n =
  if String.eqb folder "" || endswith folder "/" then folder +:+ n
  else folder +:+ "/" +:+ n.
Proof.
  intros Hmatch.
  pose proof (glob1_here_present fs "*.yaml" n Hmatch) as Hpresent.
  apply glob1_yaml in Hmatch as (Hentry & Hvisible & Hsuffix).
  apply listdir_here_name in Hentry as [Hsep _].
  repeat split; try done. by apply join_bare_name.
Qed.

Lemma X7_nested_configuration_is_not_a_match :
  glob.glob1 (files demo.stray_config) "" "*.yaml" = ["cfg.yaml"] ∧
  is_Some (files demo.stray_config !! "cfg.yaml") ∧
  has_char "/" "cfg.yaml" = false ∧ startswith "cfg.yaml" "." = false ∧
  endswith "cfg.yaml" ".yaml" = true ∧
  os_path.join "m" "cfg.yaml" = "m/cfg.yaml".
Proof.
  assert (Hglob : glob.glob1 (files demo.stray_config) "" "*.yaml"
                  = ["cfg.yaml"]) by (vm_compute; reflexivity).
  split; [exact Hglob|].
  apply (X7_matches_are_bare_names (files demo.stray_config) "m" "cfg.yaml").
  rewrite Hglob. apply list_elem_of_here.
Defined.

(** ** The training script beyond the claims *)

Lemma read_only_preserves {A} (keep : string → Prop) (m : M A) :
  read_only m → preserves keep m.
Proof. intros Hm s p _. destruct (Hm s) as [evs ->]. reflexivity. Qed.

Lemma preserves_bind {A B} (keep : string → Prop) (m : M A) (f : A → M B) :
  preserves keep m → (∀ a, preserves keep (f a)) → preserves keep (m ≫= f).
Proof.
  intros Hm Hf s p Hp. rewrite run_bind. specialize (Hm s p Hp).
  destruct (run m s) as [[a|e] s1]; simpl in Hm.
  - by rewrite (Hf a s1 p Hp).
  - done.
Qed.

Lemma preserves_makedirs_if_absent :
  preserves (λ p, p ≠ directory) makedirs_if_absent.
Proof.
  intros s p Hp. rewrite run_makedirs_if_absent.
  case_bool_decide; [done|].
  destruct (os.mkdir_files _ _ _) as [fs'|e] eqn:Hmk; [|done].
  apply mkdir_files_ok in Hmk as ->. simpl. by rewrite lookup_insert_ne.
Qed.

Section training_frame.
Context `{Training}.

Lemma preserves_dump (value : Estimator) (filename : string) :
  preserves (λ p, p ≠ filename) (joblib.dump value filename).
Proof.
  intros s p Hp. unfold run, joblib.dump.
  repeat case_match; simpl; try done; by rewrite lookup_insert_ne.
Qed.

Lemma preserves_save_model (clf : Estimator) :
  preserves (λ p, p ≠ directory ∧ p ≠ directory +:+ "/" +:+ filename +:+ ".joblib")
    (save_model clf).
Proof.
  unfold save_model. apply preserves_bind.
  - intros s p [Hp _]. by apply preserves_makedirs_if_absent.
  - intros _. apply preserves_bind.
    + intros s p [_ Hp]. by apply preserves_dump.
    + intros _. apply read_only_preserves, read_only_ret.
Qed.

Lemma read_only_read_csv (p : string) : read_only (pd.read_csv p).
Proof. intros s. by exists [EvReadCsv p]. Qed.

Lemma read_only_print (text : string) : read_only (print text).
Proof. intros s. by exists [EvPrint text]. Qed.

Lemma preserves_baseline :
  preserves (λ p, p ≠ directory ∧ p ≠ directory +:+ "/" +:+ filename +:+ ".joblib")
    baseline.
Proof.
  unfold baseline.
  repeat first
    [ apply preserves_save_model
    | apply read_only_preserves;
      first [ apply read_only_read_csv | apply read_only_lift
            | apply read_only_call_kw | apply read_only_print
            | apply read_only_ret ]
    | apply preserves_bind; [|intros ?]
    | match goal with a : (_ * _)%type |- _ => destruct a end ].
Qed.

End training_frame.

(** X8: whether the training script completes or raises, the only paths of
    the file store it can have changed are the directory [saved_models] and
    the file [saved_models/log_reg_tf_idf.joblib]; the data files and
    everything else are as before. *)
Theorem X8_script_changes_its_artifacts_only `{Training}
    (s : state) (p : string) :
  p ≠ "saved_models" → p ≠ "saved_models/log_reg_tf_idf.joblib" →
  files (run baseline s).2 !! p = files s !! p.
Proof. intros Hdir Hfile. by apply preserves_baseline. Qed.

Lemma X8_test_file_is_kept :
  files (run baseline demo.short_test).2 !! "data/data_test.csv"
  = files demo.short_test !! "data/data_test.csv".
Proof.
  apply (X8_script_changes_its_artifacts_only demo.short_test
           "data/data_test.csv"); discriminate.
Defined.

Lemma run_call_kw {V R} (sig : signature) (body : list V → result R)
    (kwargs : list (string * V)) (s : state) :
  run (call_kw sig body kwargs) s =
  (match bind_keywords sig kwargs with
   | Ok args => body args
   | Raise e => Raise e
   end, s).
Proof.
  unfold call_kw. rewrite run_bind, run_lift.
  destruct (bind_keywords sig kwargs); reflexivity.
Qed.

Section training_runs.
Context `{Training}.

(** The path the script saves to. *)
Lemma artifact_path :
  directory +:+ "/" +:+ filename +:+ ".joblib"
  = "saved_models/log_reg_tf_idf.joblib".
Proof. reflexivity. Qed.

Lemma run_save_model (clf : Estimator) (s : state) :
  run (save_model clf) s =
  match run makedirs_if_absent s with
  | (Ok _, s1) =>
      match run (joblib.dump clf "saved_models/log_reg_tf_idf.joblib") s1 with
      | (Ok _, s2) => (Ok "saved_models/log_reg_tf_idf.joblib", s2)
      | (Raise e, s2) => (Raise e, s2)
      end
  | (Raise e, s1) => (Raise e, s1)
  end.
Proof.
  unfold save_model. rewrite run_bind.
  destruct (run makedirs_if_absent s) as [[[]|e] s1]; [|reflexivity].
  rewrite run_bind, artifact_path.
  destruct (run (joblib.dump clf _) s1) as [[[]|e] s2]; reflexivity.
Qed.

(** Dumping into [saved_models] once it is a directory. *)
Lemma run_dump_artifact (clf : Estimator) (s : state) :
  files s !! "saved_models" = Some Dir →
  run (joblib.dump clf "saved_models/log_reg_tf_idf.joblib") s =
  let s' := after [EvJoblibDump "saved_models/log_reg_tf_idf.joblib"] s in
  match files s !! "saved_models/log_reg_tf_idf.joblib" with
  | Some Dir =>
      (Raise (IsADirectoryError "saved_models/log_reg_tf_idf.joblib"), s')
  | _ =>
      if readonly s
      then (Raise (OSError "saved_models/log_reg_tf_idf.joblib"), s')
      else (Ok (), set_files (<["saved_models/log_reg_tf_idf.joblib" :=
                                  File (pickle_dumps clf)]> (files s)) s')
  end.
Proof.
  intros Hdir. unfold run, joblib.dump.
  change (os_path.dirname "saved_models/log_reg_tf_idf.joblib")
    with "saved_models".
  change (String.eqb "saved_models" "") with false. cbv iota.
  rewrite Hdir. reflexivity.
Qed.

(** What a successful save has done. *)
Lemma save_model_ok (clf : Estimator) (s s' : state) (p : string) :
  run (save_model clf) s = (Ok p, s') →
  p = "saved_models/log_reg_tf_idf.joblib" ∧
  readonly s' = false ∧
  files s' !! "saved_models" = Some Dir ∧
  files s' !! p = Some (File (pickle_dumps clf)) ∧
  ∃ made, (made = [] ∨ made = [EvMakedirs "saved_models"]) ∧
    trace s' = (trace s ++ [EvExists "saved_models"] ++ made
                ++ [EvJoblibDump "saved_models/log_reg_tf_idf.joblib"])%list.
Proof.
  rewrite run_save_model, run_makedirs_if_absent.
  change directory with "saved_models".
  case_bool_decide as Hpresent.
  - destruct Hpresent as [[content|] Hdir].
    { unfold run, joblib.dump.
      change (os_path.dirname "saved_models/log_reg_tf_idf.joblib")
        with "saved_models".
      change (String.eqb "saved_models" "") with false. cbv iota.
      rewrite files_after, Hdir. discriminate. }
    rewrite run_dump_artifact by (by rewrite files_after).
    cbv zeta. rewrite files_after.
    change (readonly (after [EvExists "saved_models"] s)) with (readonly s).
    destruct (readonly s) eqn:Hro;
      [destruct (files s !! "saved_models/log_reg_tf_idf.joblib") as [[?|]|];
       discriminate|].
    destruct (files s !! "saved_models/log_reg_tf_idf.joblib") as [[?|]|];
      [|discriminate|]; intros [= <- <-]; simpl;
      (split; [done|]); (split; [done|]);
      (split; [by rewrite lookup_insert_ne|]);
      (split; [by rewrite lookup_insert_eq|]);
      exists []; (split; [by left|]); by rewrite <- !app_assoc.
  - destruct (os.mkdir_files _ _ _) as [fs'|e] eqn:Hmk; [|discriminate].
    apply mkdir_files_ok in Hmk as ->.
    rewrite run_dump_artifact by (simpl; by rewrite lookup_insert_eq).
    cbv zeta. simpl files. simpl readonly.
    destruct (readonly s) eqn:Hro;
      [destruct (<["saved_models":=Dir]> (files s)
                 !! "saved_models/log_reg_tf_idf.joblib") as [[?|]|];
       discriminate|].
    destruct (<["saved_models":=Dir]> (files s)
              !! "saved_models/log_reg_tf_idf.joblib") as [[?|]|];
      [|discriminate|]; intros [= <- <-]; simpl;
      (split; [done|]); (split; [done|]);
      (split; [by rewrite lookup_insert_ne, lookup_insert_eq|]);
      (split; [by rewrite lookup_insert_eq|]);
      exists [EvMakedirs "saved_models"]; (split; [by right|]);
      by rewrite <- !app_assoc.
Qed.

(** Saving again over an artifact that is already there. *)
Lemma save_model_again (clf : Estimator) (s : state) (old : string) :
  files s !! "saved_models" = Some Dir →
  files s !! "saved_models/log_reg_tf_idf.joblib" = Some (File old) →
  readonly s = false →
  run (save_model clf) s =
  (Ok "saved_models/log_reg_tf_idf.joblib",
   set_files (<["saved_models/log_reg_tf_idf.joblib" :=
                  File (pickle_dumps clf)]> (files s))
     (after [EvExists "saved_models";
             EvJoblibDump "saved_models/log_reg_tf_idf.joblib"] s)).
Proof.
  intros Hdir Hfile Hro.
  rewrite run_save_model, run_makedirs_if_absent.
  change directory with "saved_models".
  rewrite bool_decide_eq_true_2 by (rewrite Hdir; eauto).
  rewrite run_dump_artifact by (by rewrite files_after).
  cbv zeta. rewrite files_after, Hfile.
  change (readonly (after [EvExists "saved_models"] s)) with (readonly s).
  rewrite Hro, after_after. reflexivity.
Qed.

End training_runs.

Section training_forward.
Context `{Training}.

(** The script from its first line to the report, when reading and fitting
    succeed: what is left is the report and the save. *)
Lemma run_baseline_fitted (s : state) (train_csv test_csv : string)
    (df_train df_test : DataFrame) (X_train X_test y_train y_test : Series)
    (le0 : LabelEncoder) (vec0 : TfidfVectorizer) (clf0 : Estimator)
    (y_train_enc y_test_enc X_train_tfidf X_test_tfidf y_pred0 : ndarray) :
  files s !! "data/data_train.csv" = Some (File train_csv) →
  files s !! "data/data_test.csv" = Some (File test_csv) →
  read_csv_impl train_csv = Ok df_train →
  read_csv_impl test_csv = Ok df_test →
  df_getitem df_train "Text" = Ok X_train →
  df_getitem df_test "Text" = Ok X_test →
  df_getitem df_train "Class" = Ok y_train →
  df_getitem df_test "Class" = Ok y_test →
  le_fit_transform y_train = Ok (le0, y_train_enc) →
  le_transform le0 y_test = Ok y_test_enc →
  tfidf_fit_transform X_train = Ok (vec0, X_train_tfidf) →
  tfidf_transform vec0 X_test = Ok X_test_tfidf →
  logreg_fit X_train_tfidf y_train_enc = Ok clf0 →
  predict clf0 X_test_tfidf = Ok y_pred0 →
  let s0 := after [EvReadCsv "data/data_train.csv";
                   EvReadCsv "data/data_test.csv"] s in
  run baseline s =
  match
    match bind_keywords classification_report_sig
            [("y_true", y_test_enc); ("y_pred", y_pred0)] with
    | Ok args => classification_report_impl args
    | Raise e => Raise e
    end
  with
  | Raise e => (Raise e, s0)
  | Ok report =>
      match run (save_model clf0) (after [EvPrint report] s0) with
      | (Ok path0, s1) => (Ok (mkNamespace le0 vec0 clf0 y_pred0 path0), s1)
      | (Raise e, s1) => (Raise e, s1)
      end
  end.
Proof.
  intros Hf Hft Hd Hdt HX HXt Hy Hyt Hle Hlet Hvec Hvect Hclf Hpred s0.
  unfold baseline.
  rewrite run_bind, run_read_csv, Hf, Hd. cbv beta iota.
  rewrite run_bind, run_read_csv, files_after, Hft, Hdt, after_after.
  simpl app. fold s0. cbv beta iota.
  rewrite run_bind, run_lift, HX. cbv beta iota.
  rewrite run_bind, run_lift, HXt. cbv beta iota.
  rewrite run_bind, run_lift, Hy. cbv beta iota.
  rewrite run_bind, run_lift, Hyt. cbv beta iota.
  rewrite run_bind, run_lift, Hle. cbv beta iota.
  rewrite run_bind, run_lift, Hlet. cbv beta iota.
  rewrite run_bind, run_lift, Hvec. cbv beta iota.
  rewrite run_bind, run_lift, Hvect. cbv beta iota.
  rewrite run_bind, run_lift, Hclf. cbv beta iota.
  rewrite run_bind, run_lift, Hpred. cbv beta iota.
  rewrite run_bind, run_call_kw.
  destruct (match bind_keywords _ _ with Ok _ => _ | Raise _ => _ end)
    as [report|e]; [|reflexivity].
  cbv beta iota. rewrite run_bind.
  change (run (print report) s0) with (Ok (), after [EvPrint report] s0).
  cbv beta iota. rewrite run_bind.
  destruct (run (save_model clf0) (after [EvPrint report] s0))
    as [[path0|e] s1]; reflexivity.
Qed.

(** A completed run has printed a report and then saved its classifier. *)
Lemma baseline_ok_saved (s s' : state) (ns : namespace) :
  run baseline s = (Ok ns, s') →
  ∃ y_test_enc report,
    match bind_keywords classification_report_sig
            [("y_true", y_test_enc); ("y_pred", y_pred ns)] with
    | Ok args => classification_report_impl args
    | Raise e => Raise e
    end = Ok report ∧
    run (save_model (clf ns))
      (after [EvReadCsv "data/data_train.csv";
              EvReadCsv "data/data_test.csv"; EvPrint report] s)
    = (Ok (path ns), s').
Proof.
  intros Hrun. pose proof Hrun as Hinv.
  apply baseline_ok_inv in Hinv
    as (c & t & d & dt & X & Xt & y & yt & ye & yte & Xf & Xtf
        & Hf & Hft & Hd & Hdt & HX & HXt & Hy & Hyt & Hle & Hlet
        & Hv & Hvt & Hc & Hp).
  rewrite (run_baseline_fitted s c t d dt X Xt y yt (le ns) (vectorizer ns)
             (clf ns) ye yte Xf Xtf (y_pred ns)) in Hrun by assumption.
  cbv zeta in Hrun. exists yte.
  destruct (match bind_keywords _ _ with Ok _ => _ | Raise _ => _ end)
    as [report|e]; [|discriminate].
  exists report. split; [reflexivity|].
  rewrite after_after in Hrun. simpl app in Hrun.
  destruct (run (save_model (clf ns)) _) as [[path0|e] s1]; [|discriminate].
  injection Hrun as Hns ->. by rewrite <- Hns.
Qed.

End training_forward.

(** X9: when the script's save step succeeds, the file it wrote is
    [saved_models/log_reg_tf_idf.joblib] inside a directory, and
    [joblib.load] on that path gives the classifier back, as long as
    unpickling inverts pickling. *)
Theorem X9_saved_classifier_loads_back `{Training}
    (s s1 : state) (clf : Estimator) (p : string) :
  pickle_loads (pickle_dumps clf) = Ok clf →
  run (save_model clf) s = (Ok p, s1) →
  p = "saved_models/log_reg_tf_idf.joblib" ∧
  files s1 !! "saved_models" = Some Dir ∧
  run (joblib.load p) s1 = (Ok clf, after [EvJoblibLoad p] s1).
Proof.
  intros Hpickle Hsave.
  apply save_model_ok in Hsave as (-> & _ & Hdir & Hfile & _).
  split; [done|]. split; [done|].
  by rewrite run_joblib_load, Hfile, Hpickle.
Qed.

Lemma X9_save_then_load :
  let saved := run (save_model "logreg") demo.short_test in
  saved.1 = Ok "saved_models/log_reg_tf_idf.joblib" ∧
  files saved.2 !! "saved_models" = Some Dir ∧
  run (joblib.load "saved_models/log_reg_tf_idf.joblib") saved.2 =
  (Ok "logreg",
   after [EvJoblibLoad "saved_models/log_reg_tf_idf.joblib"] saved.2).
Proof.
  intros saved.
  assert (Hsave : run (save_model "logreg") demo.short_test
                  = (Ok "saved_models/log_reg_tf_idf.joblib", saved.2))
    by (vm_compute; reflexivity).
  split; [exact (f_equal fst Hsave)|].
  exact (proj2 (X9_saved_classifier_loads_back demo.short_test saved.2
                  "logreg" "saved_models/log_reg_tf_idf.joblib"
                  eq_refl Hsave)).
Defined.

(** X10: a completed run of the script leaves [saved_models] a directory
    holding [log_reg_tf_idf.joblib] with the pickled classifier of that run,
    binds [path] to that file, and has printed its report after reading both
    data files and before touching [saved_models]. *)
Theorem X10_completed_run_has_saved_its_classifier `{Training}
    (s s' : state) (ns : namespace) :
  run baseline s = (Ok ns, s') →
  path ns = "saved_models/log_reg_tf_idf.joblib" ∧
  files s' !! "saved_models" = Some Dir ∧
  files s' !! "saved_models/log_reg_tf_idf.joblib"
    = Some (File (pickle_dumps (clf ns))) ∧
  ∃ report made,
    (made = [] ∨ made = [EvMakedirs "saved_models"]) ∧
    trace s' =
    (trace s ++ [EvReadCsv "data/data_train.csv";
                 EvReadCsv "data/data_test.csv"; EvPrint report;
                 EvExists "saved_models"] ++ made
     ++ [EvJoblibDump "saved_models/log_reg_tf_idf.joblib"])%list.
Proof.
  intros Hrun.
  apply baseline_ok_saved in Hrun as (yte & report & _ & Hsave).
  apply save_model_ok in Hsave
    as (Hpath & _ & Hdir & Hfile & made & Hmade & Htrace).
  split; [done|]. split; [done|]. split; [by rewrite <- Hpath|].
  exists report, made. split; [done|].
  rewrite Htrace. simpl. by rewrite <- !app_assoc.
Qed.

Lemma X10_short_test_run :
  let ran := run baseline demo.short_test in
  ∃ ns, ran.1 = Ok ns ∧
    path ns = "saved_models/log_reg_tf_idf.joblib" ∧
    files ran.2 !! "saved_models" = Some Dir ∧
    files ran.2 !! "saved_models/log_reg_tf_idf.joblib"
      = Some (File (pickle_dumps (clf ns))).
Proof.
  intros ran.
  set (ns := @mkNamespace demo.world demo.training_world
               ("Class", ",Text,Class") ("Text", ",Text,Class")
               "logreg22" [11; 11] "saved_models/log_reg_tf_idf.joblib").
  assert (Hrun : run baseline demo.short_test = (Ok ns, ran.2))
    by (vm_compute; reflexivity).
  exists ns. split; [exact (f_equal fst Hrun)|].
  destruct (X10_completed_run_has_saved_its_classifier demo.short_test
              ran.2 ns Hrun) as (Hpath & Hdir & Hfile & _).
  exact (conj Hpath (conj Hdir Hfile)).
Defined.

(** X11: the guard of the save step tests existence, not kind. When
    [saved_models] exists as a regular file, [os.makedirs] is not called,
    [joblib.dump] raises [NotADirectoryError], and the file store is left
    as it was. *)
Theorem X11_save_into_a_regular_file_fails `{Training}
    (s : state) (clf : Estimator) (content : string) :
  files s !! "saved_models" = Some (File content) →
  run (save_model clf) s =
  (Raise (NotADirectoryError "saved_models/log_reg_tf_idf.joblib"),
   after [EvExists "saved_models";
          EvJoblibDump "saved_models/log_reg_tf_idf.joblib"] s).
Proof.
  intros Hfile. rewrite run_save_model, run_makedirs_if_absent.
  change directory with "saved_models".
  rewrite bool_decide_eq_true_2 by (rewrite Hfile; eauto).
  unfold run, joblib.dump.
  change (os_path.dirname "saved_models/log_reg_tf_idf.joblib")
    with "saved_models".
  change (String.eqb "saved_models" "") with false. cbv iota.
  rewrite files_after, Hfile, log_after, after_after. reflexivity.
Qed.

Lemma X11_notes_file :
  run (save_model "logreg") demo.models_is_file =
  (Raise (NotADirectoryError "saved_models/log_reg_tf_idf.joblib"),
   after [EvExists "saved_models";
          EvJoblibDump "saved_models/log_reg_tf_idf.joblib"]
     demo.models_is_file).
Proof.
  exact (X11_save_into_a_regular_file_fails demo.models_is_file "logreg"
           "notes" ltac:(vm_compute; reflexivity)).
Defined.

(** X12: the script reads the training file first and the test file
    second. A training path without an entry raises before the test file is
    looked at, and a test path without an entry raises right after the
    training file has been parsed; the exception is [NotADirectoryError]
    when [data] is a regular file and [FileNotFoundError] otherwise.
    Nothing is fitted, printed or written in either case. *)
Theorem X12_missing_data_file `{Training} (s : state) :
  let missing (p : string) : exn :=
    match files s !! "data" with
    | Some (File _) => NotADirectoryError p
    | _ => FileNotFoundError p
    end in
  (files s !! "data/data_train.csv" = None →
   run baseline s =
   (Raise (missing "data/data_train.csv"),
    after [EvReadCsv "data/data_train.csv"] s)) ∧
  (∀ train_csv df_train,
     files s !! "data/data_train.csv" = Some (File train_csv) →
     read_csv_impl train_csv = Ok df_train →
     files s !! "data/data_test.csv" = None →
     run baseline s =
     (Raise (missing "data/data_test.csv"),
      after [EvReadCsv "data/data_train.csv";
             EvReadCsv "data/data_test.csv"] s)).
Proof.
  intros missing.
  assert (∀ p, os_path.dirname p = "data" →
               missing_error (files s) p = missing p) as Hmissing_error.
  { intros p Hdir. unfold missing_error, missing.
    destruct p as [|c p]; [discriminate|].
    cbn [String.length under_regular_file]. rewrite Hdir.
    change (String.eqb "data" "") with false. cbv iota.
    destruct (files s !! "data") as [[?|]|]; [done..|].
    destruct (String.length p); reflexivity. }
  split.
  - intros Hmissing. unfold baseline.
    rewrite run_bind, run_read_csv, Hmissing.
    by rewrite Hmissing_error.
  - intros train_csv df_train Hfile Hparse Hmissing. unfold baseline.
    rewrite run_bind, run_read_csv, Hfile, Hparse. cbv beta iota.
    rewrite run_bind, run_read_csv, files_after, Hmissing, after_after.
    by rewrite Hmissing_error.
Qed.

Lemma X12_no_training_file :
  run baseline demo.no_train =
  (Raise (FileNotFoundError "data/data_train.csv"),
   after [EvReadCsv "data/data_train.csv"] demo.no_train) ∧
  run baseline demo.data_is_file =
  (Raise (NotADirectoryError "data/data_train.csv"),
   after [EvReadCsv "data/data_train.csv"] demo.data_is_file).
Proof.
  split.
  - exact (proj1 (X12_missing_data_file demo.no_train)
             ltac:(vm_compute; reflexivity)).
  - exact (proj1 (X12_missing_data_file demo.data_is_file)
             ltac:(vm_compute; reflexivity)).
Defined.

(** X13: when the fitted label encoder rejects the test labels, the script
    raises the encoder's exception as it is; by then both data files have
    been read and nothing has been printed or written, and no vectorizer or
    classifier has been fitted. *)
Theorem X13_rejected_test_labels `{Training}
    (s : state) (train_csv test_csv : string)
    (df_train df_test : DataFrame) (X_train X_test y_train y_test : Series)
    (le0 : LabelEncoder) (y_train_enc : ndarray) (e : exn) :
  files s !! "data/data_train.csv" = Some (File train_csv) →
  files s !! "data/data_test.csv" = Some (File test_csv) →
  read_csv_impl train_csv = Ok df_train →
  read_csv_impl test_csv = Ok df_test →
  df_getitem df_train "Text" = Ok X_train →
  df_getitem df_test "Text" = Ok X_test →
  df_getitem df_train "Class" = Ok y_train →
  df_getitem df_test "Class" = Ok y_test →
  le_fit_transform y_train = Ok (le0, y_train_enc) →
  le_transform le0 y_test = Raise e →
  run baseline s =
  (Raise e, after [EvReadCsv "data/data_train.csv";
                   EvReadCsv "data/data_test.csv"] s).
Proof.
  intros Hf Hft Hd Hdt HX HXt Hy Hyt Hle Hlet. unfold baseline.
  rewrite run_bind, run_read_csv, Hf, Hd. cbv beta iota.
  rewrite run_bind, run_read_csv, files_after, Hft, Hdt, after_after.
  simpl app. cbv beta iota.
  rewrite run_bind, run_lift, HX. cbv beta iota.
  rewrite run_bind, run_lift, HXt. cbv beta iota.
  rewrite run_bind, run_lift, Hy. cbv beta iota.
  rewrite run_bind, run_lift, Hyt. cbv beta iota.
  rewrite run_bind, run_lift, Hle. cbv beta iota.
  by rewrite run_bind, run_lift, Hlet.
Qed.

Lemma X13_unseen_label :
  run (@baseline demo.world demo.strict_training) demo.long_test =
  (Raise (LibraryError "y contains previously unseen labels"),
   after [EvReadCsv "data/data_train.csv"; EvReadCsv "data/data_test.csv"]
     demo.long_test).
Proof.
  exact (@X13_rejected_test_labels demo.world demo.strict_training
           demo.long_test ",Text,Class" ",Text,Class,more"
           ",Text,Class" ",Text,Class,more"
           ("Text", ",Text,Class") ("Text", ",Text,Class,more")
           ("Class", ",Text,Class") ("Class", ",Text,Class,more")
           ("Class", ",Text,Class") [11]
           (LibraryError "y contains previously unseen labels")
           ltac:(vm_compute; reflexivity) ltac:(vm_compute; reflexivity)
           eq_refl eq_refl eq_refl eq_refl eq_refl eq_refl eq_refl eq_refl).
Defined.

Section training_again.
Context `{Training}.

(** Everything a completed run has computed. *)
Lemma baseline_ok_full (s s' : state) (ns : namespace) :
  run baseline s = (Ok ns, s') →
  ∃ train_csv test_csv df_train df_test X_train X_test y_train y_test
    y_train_enc y_test_enc X_train_tfidf X_test_tfidf report,
    files s !! "data/data_train.csv" = Some (File train_csv) ∧
    files s !! "data/data_test.csv" = Some (File test_csv) ∧
    read_csv_impl train_csv = Ok df_train ∧
    read_csv_impl test_csv = Ok df_test ∧
    df_getitem df_train "Text" = Ok X_train ∧
    df_getitem df_test "Text" = Ok X_test ∧
    df_getitem df_train "Class" = Ok y_train ∧
    df_getitem df_test "Class" = Ok y_test ∧
    le_fit_transform y_train = Ok (le ns, y_train_enc) ∧
    le_transform (le ns) y_test = Ok y_test_enc ∧
    tfidf_fit_transform X_train = Ok (vectorizer ns, X_train_tfidf) ∧
    tfidf_transform (vectorizer ns) X_test = Ok X_test_tfidf ∧
    logreg_fit X_train_tfidf y_train_enc = Ok (clf ns) ∧
    predict (clf ns) X_test_tfidf = Ok (y_pred ns) ∧
    match bind_keywords classification_report_sig
            [("y_true", y_test_enc); ("y_pred", y_pred ns)] with
    | Ok args => classification_report_impl args
    | Raise e => Raise e
    end = Ok report ∧
    run (save_model (clf ns))
      (after [EvReadCsv "data/data_train.csv";
              EvReadCsv "data/data_test.csv"; EvPrint report] s)
    = (Ok (path ns), s').
Proof.
  intros Hrun. pose proof Hrun as Hinv.
  apply baseline_ok_inv in Hinv
    as (c & t & d & dt & X & Xt & y & yt & ye & yte & Xf & Xtf
        & Hf & Hft & Hd & Hdt & HX & HXt & Hy & Hyt & Hle & Hlet
        & Hv & Hvt & Hc & Hp).
  rewrite (run_baseline_fitted s c t d dt X Xt y yt (le ns) (vectorizer ns)
             (clf ns) ye yte Xf Xtf (y_pred ns)) in Hrun by assumption.
  cbv zeta in Hrun.
  destruct (match bind_keywords _ _ with Ok _ => _ | Raise _ => _ end)
    as [report|e] eqn:Hreport; [|discriminate].
  exists c, t, d, dt, X, Xt, y, yt, ye, yte, Xf, Xtf, report.
  rewrite after_after in Hrun. simpl app in Hrun.
  destruct (run (save_model (clf ns)) _) as [[path0|e] s1]; [|discriminate].
  injection Hrun as Hns ->. rewrite <- Hns. simpl.
  repeat (split; [assumption|]). reflexivity.
Qed.

End training_again.

(** X14: running the script again right after a completed run completes
    too, ends with the same encoder, vectorizer, classifier, predictions and
    path, and leaves the file store exactly as the first run left it: the
    artifact is overwritten with the same content and [os.makedirs] is not
    called. *)
Theorem X14_second_run_changes_nothing `{Training}
    (s s1 : state) (ns : namespace) :
  run baseline s = (Ok ns, s1) →
  ∃ s2, run baseline s1 = (Ok ns, s2) ∧
        files s2 = files s1 ∧
        (∀ p, EvMakedirs p ∉ drop (length (trace s1)) (trace s2)).
Proof.
  intros Hrun.
  assert (∀ p, p ≠ "saved_models" →
               p ≠ "saved_models/log_reg_tf_idf.joblib" →
               files s1 !! p = files s !! p) as Hframe.
  { intros p Hdir Hfile.
    pose proof (preserves_baseline s p (conj Hdir Hfile)) as Hkeep.
    by rewrite Hrun in Hkeep. }
  apply baseline_ok_full in Hrun
    as (c & t & d & dt & X & Xt & y & yt & ye & yte & Xf & Xtf & report
        & Hf & Hft & Hd & Hdt & HX & HXt & Hy & Hyt & Hle & Hlet
        & Hv & Hvt & Hc & Hp & Hreport & Hsave).
  apply save_model_ok in Hsave as (Hpath & Hro & Hdir & Hfile & _).
  rewrite <- (Hframe "data/data_train.csv") in Hf by discriminate.
  rewrite <- (Hframe "data/data_test.csv") in Hft by discriminate.
  rewrite (run_baseline_fitted s1 c t d dt X Xt y yt (le ns) (vectorizer ns)
             (clf ns) ye yte Xf Xtf (y_pred ns)) by assumption.
  cbv zeta. rewrite Hreport.
  rewrite Hpath in Hfile.
  rewrite (save_model_again (clf ns) _ (pickle_dumps (clf ns)))
    by (rewrite ?files_after; done).
  eexists. split; [|split].
  - f_equal. destruct ns; simpl in *. by subst.
  - simpl. by apply insert_id.
  - intros p. simpl. rewrite <- !app_assoc, drop_app_length. simpl.
    rewrite !not_elem_of_cons.
    repeat (split; [discriminate|]). apply not_elem_of_nil.
Qed.

Lemma X14_short_test_twice :
  let first := run baseline demo.short_test in
  ∃ ns s2, first.1 = Ok ns ∧
    run baseline first.2 = (Ok ns, s2) ∧ files s2 = files first.2.
Proof.
  intros first.
  set (ns := @mkNamespace demo.world demo.training_world
               ("Class", ",Text,Class") ("Text", ",Text,Class")
               "logreg22" [11; 11] "saved_models/log_reg_tf_idf.joblib").
  assert (Hrun : run baseline demo.short_test = (Ok ns, first.2))
    by (vm_compute; reflexivity).
  destruct (X14_second_run_changes_nothing demo.short_test first.2 ns Hrun)
    as (s2 & Hagain & Hfiles & _).
  exists ns, s2. split; [exact (f_equal fst Hrun)|]. by split.
Defined.

(** X15: when [saved_models] does not exist and the store can be written,
    the creation step checks, calls [os.makedirs], and ends with
    [saved_models] a directory; no other path is changed. *)
Theorem X15_creation_step_creates_when_absent (s : state) :
  files s !! "saved_models" = None →
  readonly s = false →
  run makedirs_if_absent s =
  (Ok (), set_files (<["saved_models" := Dir]> (files s))
            (after [EvExists "saved_models"; EvMakedirs "saved_models"] s)).
Proof.
  intros Habsent Hro. rewrite run_makedirs_if_absent.
  change directory with "saved_models".
  rewrite bool_decide_eq_false_2 by (rewrite Habsent; by intros [? ?]).
  unfold os.mkdir_files. rewrite Habsent, Hro. reflexivity.
Qed.

Lemma X15_fresh_store :
  run makedirs_if_absent demo.short_test =
  (Ok (), set_files (<["saved_models" := Dir]> (files demo.short_test))
            (after [EvExists "saved_models"; EvMakedirs "saved_models"]
               demo.short_test)).
Proof.
  exact (X15_creation_step_creates_when_absent demo.short_test
           ltac:(vm_compute; reflexivity) eq_refl).
Defined.

(** X16: the outcome of the search does not depend on the model folder.
    When the working directory holds no configuration file, or more than
    one, the resolver raises the same exception for every model folder
    whose metadata has two entries, whatever those folders contain. *)
Theorem X16_search_outcome_ignores_the_folder `{Diagnostics}
    (s : state) (folder1 folder2 content1 content2 : string)
    (names1 names2 : pyjson) :
  files s !! os_path.join folder1 "target_names.json" = Some (File content1) →
  json_loads content1 = Ok names1 → py_len names1 = Some 2 →
  files s !! os_path.join folder2 "target_names.json" = Some (File content2) →
  json_loads content2 = Ok names2 → py_len names2 = Some 2 →
  length (glob.glob1 (files s) "" "*.yaml") ≠ 1 →
  ∃ msg,
    (run (_get_model_and_data folder1) s).1 = Raise (FileNotFoundError msg) ∧
    (run (_get_model_and_data folder2) s).1 = Raise (FileNotFoundError msg).
Proof.
  intros Hfile1 Hjson1 Hlen1 Hfile2 Hjson2 Hlen2 Hcount.
  rewrite (resolver_searches s folder1 content1 names1) by done.
  rewrite (resolver_searches s folder2 content2 names2) by done.
  cbv zeta.
  destruct (glob.glob1 (files s) "" "*.yaml") as [|yaml [|yaml' l]];
    [|done|]; eexists; split; reflexivity.
Qed.

Lemma X16_two_folders :
  ∃ msg,
    (run (_get_model_and_data "m") demo.two_folders).1
      = Raise (FileNotFoundError msg) ∧
    (run (_get_model_and_data "n") demo.two_folders).1
      = Raise (FileNotFoundError msg).
Proof.
  assert (Hjson : json_loads demo.two_names = Ok (JList [JStr "a"; JStr "b"]))
    by (vm_compute; reflexivity).
  refine (X16_search_outcome_ignores_the_folder demo.two_folders "m" "n"
            demo.two_names demo.two_names
            (JList [JStr "a"; JStr "b"]) (JList [JStr "a"; JStr "b"])
            ltac:(vm_compute; reflexivity) Hjson eq_refl
            ltac:(vm_compute; reflexivity) Hjson eq_refl _).
  vm_compute. discriminate.
Defined.

(** ** The two flows together *)


